(** * utils.py: embedding-distance metrics and learning-rate schedule factory

    A shallow embedding of [utils.py].  Two parts of the module carry
    numeric logic:

    - the metrics [squared_distance] and [nn_accuracy], written against the
      Keras backend ([K.sum], [K.square], [K.dot], [K.min], ...) and numpy
      ([embedding.T], [** 2], [.sum(axis = 0, keepdims = True)]);
    - the factory [get_lr_schedule], which fills defaults into a dictionary
      and builds the callback of the requested learning-rate schedule.

    Numbers.  Python floats are embedded as exact rationals ([Q]); rounding,
    overflow and NaN are outside this model.  Python integers are [Z].
    Equalities between computed rationals are stated with [==] ([Qeq]). *)

From Stdlib Require Import ZArith QArith Qabs Qminmax Qpower Lia Lqa List Ascii String
  DecimalString.
From stdpp Require Import gmap strings functions.

Local Open Scope Q_scope.

(** ** Finite sums and minima over an index range *)

Definition Qsum (l : list Q) : Q := fold_right Qplus 0 l.

(** [Qsum_range f n] is [f 0 + (f 1 + ... (f (n-1) + 0))]. *)
Definition Qsum_range (f : nat -> Q) (n : nat) : Q := Qsum (map f (seq 0 n)).

(** [Qmin_upto f n] is the minimum of [f 0 .. f n] (n + 1 values). *)
Fixpoint Qmin_upto (f : nat -> Q) (n : nat) : Q :=
  match n with
  | O => f O
  | S m => Qmin (Qmin_upto f m) (f (S m))
  end.

Definition Qltb (x y : Q) : bool :=
  match x ?= y with Lt => true | _ => false end.

(** ** Tensors of the Keras backend and numpy

    A tensor is its shape together with its entries.  Entries are read by
    index; only indices inside the shape are meaningful. *)

Module Backend.

Record tensor1 := Tensor1 { len : nat; get : nat -> Q }.
Record tensor2 := Tensor2 { rows : nat; cols : nat; item : nat -> nat -> Q }.
Record mask1 := Mask1 { mlen : nat; mget : nat -> bool }.

(** What an operation of the backend can raise.  [IncompatibleShapes]: the
    operand shapes neither agree nor broadcast, or the inner dimensions of a
    matrix product differ.  [EmptyReduction]: a minimum over an axis of
    length 0, which has no rational value (the backend yields +inf). *)
Inductive backend_error := IncompatibleShapes | EmptyReduction.

Inductive result (A : Type) :=
| Ok (a : A)
| Raise (e : backend_error).
Arguments Ok {A} a.
Arguments Raise {A} e.

Definition bind {A B} (r : result A) (k : A -> result B) : result B :=
  match r with
  | Ok a => k a
  | Raise e => Raise e
  end.

Notation "'let*' x ':=' r 'in' k" := (bind r (fun x => k))
  (at level 10, x name, r at level 100, k at level 200).

(** Building tensors from nested lists (row-major, missing entries read 0). *)
Definition of_rows (n d : nat) (l : list (list Q)) : tensor2 :=
  Tensor2 n d (fun i j => nth j (nth i l nil) 0).

Definition row (A : tensor2) (i : nat) : list Q :=
  map (item A i) (seq 0 (cols A)).


(** *** Broadcasting

    Two dimensions are compatible when they are equal or one of them is 1;
    the operand of dimension 1 is then read at index 0 for every index of
    the result. *)
Definition broadcast_dim (a b : nat) : option nat :=
  if Nat.eqb a b then Some a
  else if Nat.eqb a 1 then Some b
  else if Nat.eqb b 1 then Some a
  else None.

Definition bidx (dim i : nat) : nat := if Nat.eqb dim 1 then O else i.

Definition broadcast2 (f : Q -> Q -> Q) (A B : tensor2) : result tensor2 :=
  match broadcast_dim (rows A) (rows B), broadcast_dim (cols A) (cols B) with
  | Some r, Some c =>
      Ok (Tensor2 r c (fun i j =>
            f (item A (bidx (rows A) i) (bidx (cols A) j))
              (item B (bidx (rows B) i) (bidx (cols B) j))))
  | _, _ => Raise IncompatibleShapes
  end.

Definition broadcast1 (f : Q -> Q -> Q) (u v : tensor1) : result tensor1 :=
  match broadcast_dim (len u) (len v) with
  | Some n =>
      Ok (Tensor1 n (fun i => f (get u (bidx (len u) i)) (get v (bidx (len v) i))))
  | None => Raise IncompatibleShapes
  end.

(** [A + B], [A - B] on rank-2 tensors and [u - v] on rank-1 tensors. *)
Definition add2 := broadcast2 Qplus.
Definition sub2 := broadcast2 Qminus.
Definition sub1 := broadcast1 Qminus.

(** [q * A] for a Python scalar [q]. *)
Definition scale (q : Q) (A : tensor2) : tensor2 :=
  Tensor2 (rows A) (cols A) (fun i j => q * item A i j).

(** *** numpy on the embedding matrix *)

(** [A.T] *)
Definition np_T (A : tensor2) : tensor2 :=
  Tensor2 (cols A) (rows A) (fun i j => item A j i).

(** [A ** 2] *)
Definition np_pow2 (A : tensor2) : tensor2 :=
  Tensor2 (rows A) (cols A) (fun i j => item A i j ^ 2).

(** [A.sum(axis = 0, keepdims = True)] *)
Definition np_sum_axis0_keepdims (A : tensor2) : tensor2 :=
  Tensor2 1 (cols A) (fun _ j => Qsum_range (fun i => item A i j) (rows A)).

(** *** Keras backend *)

(** [K.square(A)] *)
Definition K_square (A : tensor2) : tensor2 :=
  Tensor2 (rows A) (cols A) (fun i j => item A i j * item A i j).

(** [K.sum(A, axis = 1, keepdims = True)] *)
Definition K_sum_axis1_keepdims (A : tensor2) : tensor2 :=
  Tensor2 (rows A) 1 (fun i _ => Qsum_range (item A i) (cols A)).

(** [K.sum(A, axis = -1)] *)
Definition K_sum_last (A : tensor2) : tensor1 :=
  Tensor1 (rows A) (fun i => Qsum_range (item A i) (cols A)).

(** [K.dot(A, B)]: the matrix product; the inner dimensions must agree. *)
Definition K_dot (A B : tensor2) : result tensor2 :=
  if Nat.eqb (cols A) (rows B)
  then Ok (Tensor2 (rows A) (cols B)
             (fun i k => Qsum_range (fun j => item A i j * item B j k) (cols A)))
  else Raise IncompatibleShapes.

(** [K.min(A, axis = -1)] *)
Definition K_min_last (A : tensor2) : result tensor1 :=
  match cols A with
  | O => Raise EmptyReduction
  | S c => Ok (Tensor1 (rows A) (fun i => Qmin_upto (item A i) c))
  end.

(** [K.abs(v)] *)
Definition K_abs (v : tensor1) : tensor1 :=
  Tensor1 (len v) (fun i => Qabs (get v i)).

(** [K.less(v, q)] for a Python scalar [q] *)
Definition K_less (v : tensor1) (q : Q) : mask1 :=
  Mask1 (len v) (fun i => Qltb (get v i) q).

(** [K.cast(m, K.floatx())] *)
Definition K_cast (m : mask1) : tensor1 :=
  Tensor1 (mlen m) (fun i => if mget m i then 1 else 0).

End Backend.

(** ** The metrics of utils.py *)

Module Metrics.
Import Backend.

(** [squared_distance(y_true, y_pred)], on batches of shape N x D. *)
Definition squared_distance (y_true y_pred : tensor2) : result tensor1 :=
  let* d := sub2 y_pred y_true in
  Ok (K_sum_last (K_square d)).

(** Line 34 to 37 of [nn_accuracy]: the matrix of expanded distances. *)
Definition nn_dist (embedding y_pred : tensor2) : result tensor2 :=
  let centroids := np_T embedding in
  let centroids_norm := np_sum_axis0_keepdims (np_pow2 (np_T embedding)) in
  let pred_norm := K_sum_axis1_keepdims (K_square y_pred) in
  let* s := add2 pred_norm centroids_norm in
  let* p := K_dot y_pred centroids in
  sub2 s (scale 2 p).

(** Line 39 of [nn_accuracy]. *)
Definition nn_true_dist (y_true y_pred : tensor2) : result tensor1 :=
  let* d := sub2 y_pred y_true in
  Ok (K_sum_last (K_square d)).

(** The closure returned by [nn_accuracy(embedding)], applied to
    [(y_true, y_pred)]. *)
Definition nn_accuracy (embedding y_true y_pred : tensor2) : result tensor1 :=
  let* dist := nn_dist embedding y_pred in
  let* true_dist := nn_true_dist y_true y_pred in
  let* m := K_min_last dist in
  let* d := sub1 true_dist m in
  Ok (K_cast (K_less (K_abs d) 1e-6)).

End Metrics.

(** ** Python values, dictionaries and the object store *)

Module Py.

(** The numbers that configuration options hold. *)
Inductive pyval :=
| PyInt (z : Z)
| PyFloat (q : Q).

Definition to_Q (v : pyval) : Q :=
  match v with
  | PyInt z => inject_Z z
  | PyFloat q => q
  end.

(** [a * b] and [a + b]: integer when both operands are, float otherwise. *)
Definition py_mul (a b : pyval) : pyval :=
  match a, b with
  | PyInt x, PyInt y => PyInt (x * y)
  | _, _ => PyFloat (to_Q a * to_Q b)
  end.

Definition py_add (a b : pyval) : pyval :=
  match a, b with
  | PyInt x, PyInt y => PyInt (x + y)
  | _, _ => PyFloat (to_Q a + to_Q b)
  end.

(** [a ** i] for [i] drawn from [range(n)], a non-negative integer.  For a
    float [a] the exact value is kept; Python raises OverflowError when the
    float power overflows. *)
Definition py_pow (a : pyval) (i : nat) : pyval :=
  match a with
  | PyInt x => PyInt (x ^ Z.of_nat i)
  | PyFloat q => PyFloat (q ^ Z.of_nat i)
  end.

(** [sum(items)]: starts from the integer 0 and adds from the left. *)
Definition py_sum (items : list pyval) : pyval :=
  fold_left py_add items (PyInt 0).

(** [range(n)] *)
Definition py_range (n : nat) : list nat := seq 0 n.

(** [str.lower()] on strings of 8-bit characters: the letters A..Z are
    mapped to a..z, every other character is kept. *)
Definition lower_ascii (c : ascii) : ascii :=
  let n := nat_of_ascii c in
  if ((65 <=? n) && (n <=? 90))%nat then ascii_of_nat (n + 32) else c.

Fixpoint lower (s : string) : string :=
  match s with
  | EmptyString => EmptyString
  | String c s' => String (lower_ascii c) (lower s')
  end.

(** Dictionaries are objects of the store: two references to the same
    object see each other's updates.  [DefaultArgs] is the dictionary built
    once, when [def get_lr_schedule(..., schedule_args = {})] is executed;
    [Obj n] are the dictionaries of the callers. *)
Inductive objref :=
| DefaultArgs
| Obj (n : nat).

#[global] Instance objref_eq_dec : EqDecision objref.
Proof. solve_decision. Defined.

Abbreviation dict := (gmap string pyval).
Abbreviation store := (objref -> gmap string pyval).

Inductive exn :=
| ValueError (msg : string)
| KeyError (key : string)
| ZeroDivisionError.

(** Computations that read and update the store and may raise. *)
Definition py (A : Type) : Type := store -> (exn + A) * store.

Definition ret {A} (a : A) : py A := fun st => (inr a, st).

Definition raise {A} (e : exn) : py A := fun st => (inl e, st).

Definition bind {A B} (m : py A) (k : A -> py B) : py B :=
  fun st =>
    match m st with
    | (inr a, st') => k a st'
    | (inl e, st') => (inl e, st')
    end.

Notation "x <- m ;; k" := (bind m (fun x => k))
  (at level 100, m at next level, right associativity).
Notation "m ;;; k" := (bind m (fun _ => k))
  (at level 100, right associativity).

(** [key in d] *)
Definition contains (d : objref) (key : string) : py bool :=
  fun st => (inr (bool_decide (is_Some (st d !! key))), st).

(** [d[key] = v] *)
Definition setitem (d : objref) (key : string) (v : pyval) : py unit :=
  fun st => (inr tt, <[d := <[key := v]> (st d)]> st).

(** [d[key]] *)
Definition getitem (d : objref) (key : string) : py pyval :=
  fun st =>
    match st d !! key with
    | Some v => (inr v, st)
    | None => (inl (KeyError key), st)
    end.

(** [a // b] on integers *)
Definition floordiv (a b : Z) : py Z :=
  if (b =? 0)%Z then raise ZeroDivisionError else ret (a / b)%Z.

End Py.

(** ** The learning-rate schedule factory *)

Module Schedules.
Import Py.

Definition LR_SCHEDULES : list string :=
  ["SGD"; "SGDR"; "CLR"; "ResNet-Schedule"]%string.

(** The callback objects, as the constructor calls that build them. *)
Inductive callback :=
| ReduceLROnPlateau (monitor : string) (patience : pyval) (epsilon : Q)
    (min_lr : pyval) (verbose : bool)
| SGDR (min_lr : Q) (max_lr base_epochs mul_epochs : pyval)
| CyclicLR (base_lr max_lr step_size : pyval) (mode : string)
| LearningRateScheduler (schedule : Z -> Q).

(** The closure [resnet_scheduler] of the last branch. *)
Definition resnet_scheduler (epoch : Z) : Q :=
  if (epoch >=? 120)%Z then 0.001
  else if (epoch >=? 80)%Z then 0.01
  else if (epoch >=? 1)%Z then 0.1
  else 0.01.

(** [if key not in schedule_args: schedule_args[key] = v] *)
Definition set_if_absent (d : objref) (key : string) (v : pyval) : py unit :=
  present <- contains d key ;;
  if negb present then setitem d key v else ret tt.

(** The argument [schedule_args]: the caller's dictionary, or, when the
    caller passes none, the default object of the function. *)
Definition actual_args (schedule_args : option nat) : objref :=
  match schedule_args with
  | Some n => Obj n
  | None => DefaultArgs
  end.

(** The body of the branch [schedule.lower() == 'sgd']. *)
Definition sgd_branch (args : objref) : py (list callback * pyval) :=
  set_if_absent args "sgd_patience" (PyInt 10) ;;;
  set_if_absent args "sgd_min_lr" (PyFloat 1e-4) ;;;
  patience <- getitem args "sgd_patience" ;;
  min_lr <- getitem args "sgd_min_lr" ;;
  ret ([ReduceLROnPlateau "val_loss" patience 1e-4 min_lr true], PyInt 200).

(** The body of the branch [schedule.lower() == 'sgdr']. *)
Definition sgdr_branch (args : objref) : py (list callback * pyval) :=
  set_if_absent args "sgdr_base_len" (PyInt 12) ;;;
  set_if_absent args "sgdr_mul" (PyInt 2) ;;;
  set_if_absent args "sgdr_max_lr" (PyFloat 0.1) ;;;
  max_lr <- getitem args "sgdr_max_lr" ;;
  base_len <- getitem args "sgdr_base_len" ;;
  mul <- getitem args "sgdr_mul" ;;
  let cb := SGDR 1e-6 max_lr base_len mul in
  base_len' <- getitem args "sgdr_base_len" ;;
  mul' <- getitem args "sgdr_mul" ;;
  ret ([cb],
       py_sum (map (fun i => py_mul base_len' (py_pow mul' i)) (py_range 5))).

(** The body of the branch [schedule.lower() == 'clr']. *)
Definition clr_branch (num_samples batch_size : Z) (args : objref)
    : py (list callback * pyval) :=
  set_if_absent args "clr_step_len" (PyInt 12) ;;;
  set_if_absent args "clr_min_lr" (PyFloat 1e-5) ;;;
  set_if_absent args "clr_max_lr" (PyFloat 0.1) ;;;
  min_lr <- getitem args "clr_min_lr" ;;
  max_lr <- getitem args "clr_max_lr" ;;
  step_len <- getitem args "clr_step_len" ;;
  per_epoch <- floordiv num_samples batch_size ;;
  let cb := CyclicLR min_lr max_lr (py_mul step_len (PyInt per_epoch))
              "triangular" in
  step_len' <- getitem args "clr_step_len" ;;
  ret ([cb], py_mul step_len' (PyInt 20)).

(** The body of the branch [schedule.lower() == 'resnet-schedule']. *)
Definition resnet_branch : py (list callback * pyval) :=
  ret ([LearningRateScheduler resnet_scheduler], PyInt 164).

Definition get_lr_schedule (schedule : string) (num_samples batch_size : Z)
    (schedule_args : option nat) : py (list callback * pyval) :=
  let args := actual_args schedule_args in
  if String.eqb (lower schedule) "sgd" then sgd_branch args
  else if String.eqb (lower schedule) "sgdr" then sgdr_branch args
  else if String.eqb (lower schedule) "clr" then
    clr_branch num_samples batch_size args
  else if String.eqb (lower schedule) "resnet-schedule" then resnet_branch
  else raise (ValueError ("Unknown learning rate schedule: " ++ schedule)).

End Schedules.

(** ** The nearest-centroid rule, in the words of the specification

    Vectors are lists here; these definitions are what the theorems below
    compare the tensor code with. *)

Module MetricSpec.

(** The squared norm of [p] and the dot product of [p] and [c]. *)
Definition sq_norm (p : list Q) : Q := Qsum (map (fun x => x * x) p).

Definition dot (p c : list Q) : Q :=
  Qsum (map (fun pc => fst pc * snd pc) (combine p c)).

(** The distance to a centroid, expanded: [|p|^2 + |c|^2 - 2 (p . c)]. *)
Definition expanded_distance (p c : list Q) : Q :=
  sq_norm p + sq_norm c - 2 * dot p c.

(** The squared distance, computed directly: the sum of [(p_i - t_i)^2]. *)
Definition direct_distance (t p : list Q) : Q :=
  Qsum (map (fun tp => (snd tp - fst tp) * (snd tp - fst tp)) (combine t p)).




End MetricSpec.

(** ** The factory, in the words of the specification *)

Module ScheduleSpec.
Import Py Schedules.

(** Case-insensitive comparison: two characters match when they are equal
    or are the upper and the lower case of one letter. *)
Definition is_upper (c : ascii) : bool :=
  let n := nat_of_ascii c in ((65 <=? n) && (n <=? 90))%nat.

Definition same_letter (a b : ascii) : bool :=
  Ascii.eqb a b
  || (is_upper a && Nat.eqb (nat_of_ascii b) (nat_of_ascii a + 32))
  || (is_upper b && Nat.eqb (nat_of_ascii a) (nat_of_ascii b + 32)).

Fixpoint caseless_eqb (s t : string) : bool :=
  match s, t with
  | EmptyString, EmptyString => true
  | String a s', String b t' => same_letter a b && caseless_eqb s' t'
  | _, _ => false
  end.

(** The name matches one of the four tokens of [LR_SCHEDULES]. *)
Definition recognized (name : string) : bool :=
  existsb (caseless_eqb name) LR_SCHEDULES.

(** What the specification calls UnknownSchedule. *)
Definition UnknownSchedule (name : string) : exn :=
  ValueError ("Unknown learning rate schedule: " ++ name).

(** The documented defaults of each variant, as a dictionary. *)
Definition defaults_of (name : string) : dict :=
  if caseless_eqb name "SGD" then
    {[ "sgd_patience" := PyInt 10; "sgd_min_lr" := PyFloat 1e-4 ]}
  else if caseless_eqb name "SGDR" then
    {[ "sgdr_base_len" := PyInt 12; "sgdr_mul" := PyInt 2;
       "sgdr_max_lr" := PyFloat 0.1 ]}
  else if caseless_eqb name "CLR" then
    {[ "clr_step_len" := PyInt 12; "clr_min_lr" := PyFloat 1e-5;
       "clr_max_lr" := PyFloat 0.1 ]}
  else ∅.

(** The options that enter arithmetic are Python integers: [base_len] and
    [mul] for WarmRestart, [step_len] for Cyclic, each read as the supplied
    value or else the default.  Integer arithmetic is exact in Python; with
    a float among them the power and the int-to-float conversion of the
    code can raise OverflowError, which exact rationals do not show. *)
Definition is_int (v : pyval) : Prop := exists z, v = PyInt z.

Definition integer_options (name : string) (d : dict) : Prop :=
  (caseless_eqb name "SGDR" = true ->
   is_int (default (PyInt 12) (d !! "sgdr_base_len")) /\
   is_int (default (PyInt 2) (d !! "sgdr_mul"))) /\
  (caseless_eqb name "CLR" = true ->
   is_int (default (PyInt 12) (d !! "clr_step_len"))).

(** [d] with [key] set to [v] unless [d] already has [key]. *)
Definition setdefault (key : string) (v : pyval) (d : dict) : dict :=
  match d !! key with
  | Some _ => d
  | None => <[key := v]> d
  end.

End ScheduleSpec.

(** ** Network construction

    [build_simplenet], [build_network] and [get_custom_objects].  Layers and
    models are recorded as the constructor calls that build them; what Keras
    does with them afterwards is outside this file. *)

Module Networks.
Local Open Scope string_scope.

Definition ARCHITECTURES : list string :=
  ["simple"; "simple-mp"; "resnet-32"; "resnet-110"; "resnet-110-fc";
   "wrn-28-10"; "densenet-100-12"; "vgg16"; "resnet-50"].

(** An entry of the list [filters]: a number of filters, or a string. *)
Inductive filter_spec :=
| FInt (z : Z)
| FStr (s : string).

(** [keras.regularizers.l2(l)] *)
Inductive regularizer := l2 (l : Q).

Inductive layer :=
| Conv2D (filters : filter_spec) (kernel_size : Z * Z) (padding : string)
    (activation : string) (kernel_regularizer : regularizer)
    (input_shape : option (Z * Z * Z)) (name : string)
| BatchNormalization (name : string)
| MaxPooling2D (pool_size : Z * Z) (name : string)
| AveragePooling2D (pool_size : Z * Z) (name : string)
| GlobalAvgPool2D (name : string)
| Flatten (name : string)
| Dense (units : Z) (activation : option string)
    (kernel_regularizer : option regularizer) (name : string).

Inductive model :=
| Sequential (layers : list layer) (name : option string)
| SmallResNet (n : Z) (filters : list Z) (include_top : bool)
    (top_activation : option (option string)) (classes : Z)
    (name : option string)
| WideResidualNetwork (input_shape : Z * Z * Z) (nb_classes N k verbose : Z)
    (final_activation : option string)
| DenseNet (growth_rate depth : Z) (bottleneck : bool) (classes : Z)
    (activation : option string) (name : option string)
| VGG16 (classes : Z) (final_activation : option string)
| ResNet50WithHead (head : list layer) (name : option string).

(** [IndexError]: [filters[0]] on an empty list.  [IntValueError s]: the
    ValueError of [int(s)].  [ValueError msg]: raised by [build_network]. *)
Inductive build_error :=
| IndexError
| IntValueError (literal : string)
| ValueError (msg : string).

Inductive custom_object := ChannelPadding.

(** [str(i)] for a non-negative integer. *)
Definition str_of_nat (i : nat) : string :=
  NilZero.string_of_uint (Nat.to_uint i).

(** [s[n:]] *)
Fixpoint str_drop (n : nat) (s : string) : string :=
  match n, s with
  | O, _ => s
  | S _, EmptyString => EmptyString
  | S m, String _ s' => str_drop m s'
  end.

(** [f == s] for an entry [f] and a string literal [s]. *)
Definition entry_is (f : filter_spec) (s : string) : bool :=
  match f with
  | FStr t => String.eqb t s
  | FInt _ => false
  end.

(** [isinstance(f, str) and f.startswith('fc')] *)
Definition entry_is_fc (f : filter_spec) : bool :=
  match f with
  | FStr t => String.prefix "fc" t
  | FInt _ => false
  end.

(** [f[2:]] for a string entry. *)
Definition entry_suffix (f : filter_spec) : string :=
  match f with
  | FStr t => str_drop 2 t
  | FInt _ => EmptyString
  end.

(** The defaults [activation = 'relu'] and
    [regularizer = keras.regularizers.l2(0.0005)]. *)
Definition default_activation : string := "relu".
Definition default_regularizer : regularizer := l2 0.0005.

Section WithInt.

(** Python's [int] on strings: [None] when it raises ValueError. *)
Variable py_int : string -> option Z.

(** One iteration of the loop over [enumerate(filters[1:], start = 2)], on
    the state [(flattened, layers)]. *)
Definition simplenet_step (prefix activation : string) (reg : regularizer)
    (i : nat) (f : filter_spec) (state : bool * list layer)
    : build_error + bool * list layer :=
  let '(flattened, layers) := state in
  if entry_is f "mp" then
    inr (flattened,
         app layers [MaxPooling2D (2, 2)%Z (prefix ++ "mp" ++ str_of_nat i)])
  else if entry_is f "ap" then
    inr (flattened,
         app layers [AveragePooling2D (2, 2)%Z (prefix ++ "ap" ++ str_of_nat i)])
  else if entry_is f "gap" then
    inr (true, app layers [GlobalAvgPool2D (prefix ++ "avg_pool")])
  else if entry_is_fc f then
    let layers1 :=
      if negb flattened then app layers [Flatten (prefix ++ "flatten")]
      else layers in
    match py_int (entry_suffix f) with
    | None => inl (IntValueError (entry_suffix f))
    | Some units =>
        inr (true,
             app (app layers1 [Dense units (Some activation) (Some reg)
                                 (prefix ++ "fc" ++ str_of_nat i)])
               [BatchNormalization (prefix ++ "bn" ++ str_of_nat i)])
    end
  else
    inr (flattened,
         app (app layers [Conv2D f (3, 3)%Z "same" activation reg None
                            (prefix ++ "conv" ++ str_of_nat i)])
           [BatchNormalization (prefix ++ "bn" ++ str_of_nat i)]).

Fixpoint simplenet_loop (prefix activation : string) (reg : regularizer)
    (i : nat) (fs : list filter_spec) (state : bool * list layer)
    : build_error + bool * list layer :=
  match fs with
  | nil => inr state
  | f :: fs' =>
      match simplenet_step prefix activation reg i f state with
      | inl e => inl e
      | inr state' => simplenet_loop prefix activation reg (S i) fs' state'
      end
  end.

Definition build_simplenet (output_dim : Z) (filters : list filter_spec)
    (activation : string) (reg : regularizer)
    (final_activation : option string) (name : option string)
    : build_error + model :=
  let prefix := match name with None => "" | Some nm => nm ++ "_" end in
  match filters with
  | nil => inl IndexError
  | f0 :: rest =>
      let layers :=
        [Conv2D f0 (3, 3)%Z "same" activation reg (Some (32, 32, 3)%Z)
           (prefix ++ "conv1");
         BatchNormalization (prefix ++ "bn1")] in
      match simplenet_loop prefix activation reg 2 rest (false, layers) with
      | inl e => inl e
      | inr (flattened, layers) =>
          let layers :=
            if negb flattened then app layers [Flatten (prefix ++ "flatten")]
            else layers in
          let last :=
            if bool_decide (final_activation = Some "softmax") then "prob"
            else "embedding" in
          inr (Sequential
                 (app layers [Dense output_dim final_activation None
                                (prefix ++ last)]) name)
      end
  end.

(** ['softmax' if classification else None] *)
Definition softmax_if (classification : bool) : option string :=
  if classification then Some "softmax" else None.

Definition build_network (num_outputs : Z) (architecture : string)
    (classification : bool) (name : option string) : build_error + model :=
  if String.eqb architecture "resnet-32" then
    inr (SmallResNet 5
           (if classification then [16; 32; 64] else [32; 64; num_outputs])%Z
           classification None num_outputs name)
  else if String.eqb architecture "resnet-110" then
    inr (SmallResNet 18
           (if classification then [16; 32; 64] else [32; 64; num_outputs])%Z
           classification None num_outputs name)
  else if String.eqb architecture "resnet-110-fc" then
    inr (SmallResNet 18 [32; 64; 128]%Z true
           (Some (softmax_if classification)) num_outputs name)
  else if String.eqb architecture "wrn-28-10" then
    inr (WideResidualNetwork (32, 32, 3)%Z num_outputs 4 10 0
           (softmax_if classification))
  else if String.eqb architecture "densenet-100-12" then
    inr (DenseNet 12 100 false num_outputs (softmax_if classification) name)
  else if String.eqb architecture "simple" then
    build_simplenet num_outputs
      [FInt 64; FInt 64; FStr "ap"; FInt 128; FInt 128; FInt 128; FStr "ap";
       FInt 256; FInt 256; FInt 256; FStr "ap"; FInt 512; FStr "gap";
       FStr "fc512"]
      default_activation default_regularizer (softmax_if classification) name
  else if String.eqb architecture "simple-mp" then
    build_simplenet num_outputs
      [FInt 64; FInt 64; FStr "mp"; FInt 128; FInt 128; FInt 128; FStr "mp";
       FInt 256; FInt 256; FInt 256; FStr "mp"; FInt 512; FStr "gap";
       FStr "fc512"]
      default_activation default_regularizer (softmax_if classification) name
  else if String.eqb architecture "vgg16" then
    inr (VGG16 num_outputs (softmax_if classification))
  else if String.eqb architecture "resnet-50" then
    inr (ResNet50WithHead
           [GlobalAvgPool2D "avg_pool";
            Dense num_outputs (softmax_if classification) None
              (if classification then "prob" else "embedding")]
           name)
  else
    inl (ValueError ("Unknown network architecture: " ++ architecture)).

End WithInt.

Definition get_custom_objects (architecture : string)
    : gmap string custom_object :=
  if existsb (String.eqb architecture)
       ["resnet-32"; "resnet-110"; "resnet-110-fc"]
  then {[ "ChannelPadding" := ChannelPadding ]}
  else ∅.

(** Reading a list of layers: the layers that flatten the feature maps, and
    whether every [Dense] layer comes after one of them. *)
Definition flattens (l : layer) : bool :=
  match l with
  | Flatten _ | GlobalAvgPool2D _ => true
  | _ => false
  end.

Definition is_Flatten (l : layer) : bool :=
  match l with
  | Flatten _ => true
  | _ => false
  end.

Definition is_Dense (l : layer) : bool :=
  match l with
  | Dense _ _ _ _ => true
  | _ => false
  end.

Fixpoint dense_guarded (seen : bool) (ls : list layer) : bool :=
  match ls with
  | nil => true
  | l :: ls' =>
      (if is_Dense l then seen else true)
      && dense_guarded (seen || flattens l) ls'
  end.

(** The loop invariant: the flag [flattened] says whether a flattening
    layer has been appended, no [Dense] layer precedes the first of them,
    and [Flatten] has been appended at most once. *)
Definition loop_invariant (state : bool * list layer) : Prop :=
  fst state = existsb flattens (snd state) /\
  dense_guarded false (snd state) = true /\
  (length (List.filter is_Flatten (snd state)) <= 1)%nat.

(** A decimal parser: the digit strings accepted by every [int]. *)
Fixpoint digits_value (acc : Z) (s : string) : option Z :=
  match s with
  | EmptyString => Some acc
  | String c s' =>
      let n := nat_of_ascii c in
      if ((48 <=? n) && (n <=? 57))%nat
      then digits_value (10 * acc + Z.of_nat (n - 48)) s'
      else None
  end.

Definition digits_int (s : string) : option Z :=
  match s with
  | EmptyString => None
  | _ => digits_value 0 s
  end.

End Networks.

(** ** Arithmetic of finite sums *)

Section Sums.

Lemma Qsum_map_ext (l : list nat) (f g : nat -> Q) :
  (forall j, In j l -> f j == g j) -> Qsum (map f l) == Qsum (map g l).
Proof.
  induction l as [|a l IH]; intros Hfg; simpl.
  - reflexivity.
  - rewrite (Hfg a) by (now left).
    rewrite IH by (intros j Hj; apply Hfg; now right).
    reflexivity.
Qed.

Lemma Qsum_range_ext (f g : nat -> Q) (n : nat) :
  (forall j, (j < n)%nat -> f j == g j) -> Qsum_range f n == Qsum_range g n.
Proof.
  intros Hfg. apply Qsum_map_ext. intros j Hj.
  apply in_seq in Hj. apply Hfg. lia.
Qed.

(** The binomial expansion, summed: the algebra behind the expanded
    distance. *)
Lemma Qsum_square_expand (l : list nat) (p c : nat -> Q) :
  Qsum (map (fun j => (p j - c j) * (p j - c j)) l)
  == Qsum (map (fun j => p j * p j) l) + Qsum (map (fun j => c j * c j) l)
     - 2 * Qsum (map (fun j => p j * c j) l).
Proof.
  induction l as [|a l IH]; cbn [map Qsum fold_right].
  - ring.
  - fold (Qsum (map (fun j => (p j - c j) * (p j - c j)) l)).
    fold (Qsum (map (fun j => p j * p j) l)).
    fold (Qsum (map (fun j => c j * c j) l)).
    fold (Qsum (map (fun j => p j * c j) l)).
    rewrite IH. ring.
Qed.


End Sums.

(** ** Shapes and entries of the distance tensors *)

Section MetricFacts.
Import Backend Metrics MetricSpec.
Local Arguments Qsum : simpl never.
Local Arguments Qsum_range : simpl never.

Lemma broadcast_dim_same (n : nat) : broadcast_dim n n = Some n.
Proof. unfold broadcast_dim. now rewrite Nat.eqb_refl. Qed.

Lemma broadcast_dim_1_r (n : nat) : broadcast_dim n 1 = Some n.
Proof.
  unfold broadcast_dim. destruct (Nat.eqb_spec n 1) as [->|]; reflexivity.
Qed.

Lemma broadcast_dim_1_l (n : nat) : broadcast_dim 1 n = Some n.
Proof.
  unfold broadcast_dim. rewrite (Nat.eqb_sym 1 n).
  destruct (Nat.eqb_spec n 1) as [->|]; reflexivity.
Qed.

Lemma broadcast_dim_None (a b : nat) :
  broadcast_dim a b = None <-> (a <> b /\ a <> 1 /\ b <> 1)%nat.
Proof.
  unfold broadcast_dim.
  destruct (Nat.eqb_spec a b), (Nat.eqb_spec a 1), (Nat.eqb_spec b 1);
    split; intros H; try discriminate; try reflexivity; try tauto; try lia.
Qed.

Lemma bidx_lt (n i : nat) : (i < n)%nat -> bidx n i = i.
Proof.
  unfold bidx. destruct (Nat.eqb_spec n 1) as [->|]; [lia | reflexivity].
Qed.

Lemma combine_map_seq {A B} (f : nat -> A) (g : nat -> B) (l : list nat) :
  combine (map f l) (map g l) = map (fun j => (f j, g j)) l.
Proof. induction l as [|a l IH]; cbn; [reflexivity | now rewrite IH]. Qed.

(** Every entry of the matrix of line 37 is the expanded distance between
    a prediction row and a centroid row. *)
Lemma nn_dist_expanded (E P : tensor2) :
  cols P = cols E ->
  exists D, nn_dist E P = Ok D /\ rows D = rows P /\ cols D = rows E /\
    forall i k, (i < rows P)%nat -> (k < rows E)%nat ->
      item D i k == expanded_distance (row P i) (row E k).
Proof.
  intros Hd. unfold nn_dist, add2, sub2, broadcast2, K_dot. cbn.
  rewrite broadcast_dim_1_r, broadcast_dim_1_l. cbn.
  rewrite Hd, Nat.eqb_refl. cbn. rewrite !broadcast_dim_same.
  eexists. split; [reflexivity|]. cbn. repeat split.
  intros i k Hi Hk. rewrite !(bidx_lt _ i), !(bidx_lt _ k) by assumption.
  unfold expanded_distance, sq_norm, dot, row, Qsum_range.
  rewrite Hd, combine_map_seq, !map_map. cbn [fst snd].
  reflexivity.
Qed.

(** Every entry of the tensor of line 39 is the direct squared distance
    between a prediction row and its true embedding row. *)
Lemma nn_true_dist_direct (T P : tensor2) :
  rows T = rows P -> cols T = cols P ->
  exists td, nn_true_dist T P = Ok td /\ len td = rows P /\
    forall i, (i < rows P)%nat ->
      get td i == direct_distance (row T i) (row P i).
Proof.
  intros Hr Hc. unfold nn_true_dist, sub2, broadcast2.
  rewrite Hr, Hc, !broadcast_dim_same. cbn.
  eexists. split; [reflexivity|]. cbn. split; [reflexivity|].
  intros i Hi. unfold direct_distance, row, Qsum_range.
  rewrite Hc, combine_map_seq, map_map. cbn [fst snd].
  apply Qsum_map_ext. intros j Hj. apply in_seq in Hj.
  rewrite !bidx_lt by lia. reflexivity.
Qed.

(** The two formulas agree on a prediction row and a centroid row. *)
Lemma expanded_direct_rows (E T P : tensor2) (i k : nat) :
  cols P = cols E -> cols T = cols P ->
  (forall j, (j < cols E)%nat -> item T i j == item E k j) ->
  expanded_distance (row P i) (row E k) == direct_distance (row T i) (row P i).
Proof.
  intros Hd Hc Hrow. unfold expanded_distance, direct_distance, sq_norm, dot, row.
  rewrite Hc, Hd, !combine_map_seq, !map_map. cbn [fst snd].
  rewrite (Qsum_map_ext (seq 0 (cols E))
             (fun j => (item P i j - item T i j) * (item P i j - item T i j))
             (fun j => (item P i j - item E k j) * (item P i j - item E k j))).
  - rewrite Qsum_square_expand. reflexivity.
  - intros j Hj. apply in_seq in Hj. rewrite (Hrow j) by lia. reflexivity.
Qed.






End MetricFacts.

(** ** The classifier *)

Section Classifier.
Import Backend Metrics MetricSpec.
Local Arguments Qsum : simpl never.
Local Arguments Qsum_range : simpl never.

(** C2.  The expanded distance of line 37 and the direct squared distance
    of line 39 are the same number: for a prediction row [i] and a centroid
    row [k] that is the true embedding of sample [i], entry [(i, k)] of the
    distance matrix equals entry [i] of [true_dist], and they are the two
    formulas of the specification applied to these two rows. *)
Theorem expanded_distance_matches_direct (E T P : tensor2) (i k : nat) :
  cols P = cols E -> rows T = rows P -> cols T = cols P ->
  (i < rows P)%nat -> (k < rows E)%nat ->
  (forall j, (j < cols E)%nat -> item T i j == item E k j) ->
  exists D td, nn_dist E P = Ok D /\ nn_true_dist T P = Ok td /\
    item D i k == expanded_distance (row P i) (row E k) /\
    get td i == direct_distance (row T i) (row P i) /\
    item D i k == get td i.
Proof.
  intros Hd Hr Hc Hi Hk Hrow.
  destruct (nn_dist_expanded E P Hd) as (D & HD & _ & _ & Hent).
  destruct (nn_true_dist_direct T P Hr Hc) as (td & Htd & _ & Hdir).
  exists D, td. repeat split; try assumption.
  - now apply Hent.
  - now apply Hdir.
  - rewrite (Hent i k Hi Hk), (Hdir i Hi).
    now apply expanded_direct_rows.
Qed.

Lemma expanded_distance_matches_direct_witness :
  let E := of_rows 2 2 [[0; 0]; [3; 4]] in
  let T := of_rows 1 2 [[3; 4]] in
  let P := of_rows 1 2 [[1; 2]] in
  exists D td, nn_dist E P = Ok D /\ nn_true_dist T P = Ok td /\
    item D 0 1 == expanded_distance (row P 0) (row E 1) /\
    get td 0 == direct_distance (row T 0) (row P 0) /\
    item D 0 1 == get td 0.
Proof.
  intros E T P.
  apply (expanded_distance_matches_direct E T P 0 1).
  - reflexivity.
  - reflexivity.
  - reflexivity.
  - cbn. lia.
  - cbn. lia.
  - intros j _. reflexivity.
Defined.



(** The example of the specification: centroids 0 and 10 in dimension 1, the
    prediction 0.1 is correct for the true embedding 0 and incorrect for the
    true embedding 10. *)
Example nn_accuracy_two_centroids :
  exists v,
    nn_accuracy (of_rows 2 1 [[0]; [10]]) (of_rows 2 1 [[0]; [10]])
      (of_rows 2 1 [[0.1]; [0.1]]) = Ok v /\
    len v = 2%nat /\ get v 0 = 1 /\ get v 1 = 0.
Proof. eexists. split; [reflexivity|]. repeat split. Qed.

(** *** Operands of different dimensions *)

(** C9, as stated, fails: a true batch of dimension 1 against a prediction
    batch of dimension 2 is broadcast, and [squared_distance] returns
    [(1 - 5)^2 + (2 - 5)^2 = 25]. *)
Lemma squared_distance_broadcasts_dim_1 :
  let y_true := of_rows 1 1 [[5]] in
  let y_pred := of_rows 1 2 [[1; 2]] in
  cols y_true <> cols y_pred /\
  exists v, squared_distance y_true y_pred = Ok v /\
            len v = 1%nat /\ get v 0 = 25.
Proof.
  cbn. split; [discriminate|].
  eexists. split; [reflexivity|]. split; reflexivity.
Qed.

(** C9, amended.  For batches of the same number of rows whose last
    dimensions differ: [squared_distance] raises the shape error when
    neither dimension is 1; when one of them is 1 that operand is broadcast
    along the other and a value is returned.  The classifier raises the
    shape error whenever the dimension of the predictions differs from the
    dimension of the centroids. *)
Theorem squared_distance_unequal_dims (T P : tensor2) :
  rows T = rows P -> cols T <> cols P ->
  (cols T <> 1%nat -> cols P <> 1%nat ->
     squared_distance T P = Raise IncompatibleShapes) /\
  (cols T = 1%nat ->
     exists v, squared_distance T P = Ok v /\ len v = rows P /\
       forall i, (i < rows P)%nat ->
         get v i == Qsum_range (fun j => (item P i j - item T i 0)
                                         * (item P i j - item T i 0)) (cols P)) /\
  (cols P = 1%nat ->
     exists v, squared_distance T P = Ok v /\ len v = rows P /\
       forall i, (i < rows P)%nat ->
         get v i == Qsum_range (fun j => (item P i 0 - item T i j)
                                         * (item P i 0 - item T i j)) (cols T)) /\
  (forall E T', cols P <> cols E ->
     nn_accuracy E T' P = Raise IncompatibleShapes).
Proof.
  intros Hr Hne. repeat split.
  - intros HT HP. unfold squared_distance, sub2, broadcast2.
    rewrite Hr, broadcast_dim_same.
    assert (Hn : broadcast_dim (cols P) (cols T) = None)
      by (apply broadcast_dim_None; repeat split; congruence).
    rewrite Hn. reflexivity.
  - intros HT. unfold squared_distance, sub2, broadcast2.
    rewrite Hr, HT, broadcast_dim_same, broadcast_dim_1_r. cbn.
    eexists. split; [reflexivity|]. cbn. split; [reflexivity|].
    intros i Hi. apply Qsum_range_ext. intros j Hj.
    rewrite bidx_lt by assumption.
    unfold bidx. destruct (Nat.eqb_spec (cols P) 1) as [HP|_]; [congruence|].
    reflexivity.
  - intros HP. unfold squared_distance, sub2, broadcast2.
    rewrite Hr, HP, broadcast_dim_same, broadcast_dim_1_l. cbn.
    eexists. split; [reflexivity|]. cbn. split; [reflexivity|].
    intros i Hi. apply Qsum_range_ext. intros j Hj.
    rewrite bidx_lt by assumption.
    unfold bidx. destruct (Nat.eqb_spec (cols T) 1) as [HT|_]; [congruence|].
    reflexivity.
  - intros E T' HE. unfold nn_accuracy, nn_dist, add2, broadcast2, K_dot. cbn.
    rewrite broadcast_dim_1_r, broadcast_dim_1_l. cbn.
    destruct (Nat.eqb_spec (cols P) (cols E)) as [Heq|_]; [contradiction|].
    reflexivity.
Qed.

Lemma squared_distance_unequal_dims_witness :
  let T := of_rows 1 3 [[1; 2; 3]] in
  let P := of_rows 1 2 [[1; 2]] in
  squared_distance T P = Raise IncompatibleShapes.
Proof.
  intros T P.
  apply (squared_distance_unequal_dims T P).
  - reflexivity.
  - cbn. discriminate.
  - cbn. discriminate.
  - cbn. discriminate.
Defined.

End Classifier.

(** ** Strings: [lower] and case-insensitive comparison *)

Section Caseless.
Import Py Schedules ScheduleSpec.

Lemma nat_of_ascii_inj (a b : ascii) :
  nat_of_ascii a = nat_of_ascii b -> a = b.
Proof.
  intros H. rewrite <- (ascii_nat_embedding a), <- (ascii_nat_embedding b).
  now rewrite H.
Qed.

Lemma nat_of_lower_ascii (c : ascii) :
  nat_of_ascii (lower_ascii c)
  = if is_upper c then (nat_of_ascii c + 32)%nat else nat_of_ascii c.
Proof.
  unfold lower_ascii, is_upper.
  destruct ((65 <=? nat_of_ascii c) && (nat_of_ascii c <=? 90))%nat eqn:Hu;
    [|reflexivity].
  apply andb_true_iff in Hu as [_ Hu]. apply Nat.leb_le in Hu.
  apply nat_ascii_embedding. lia.
Qed.

Lemma same_letter_lower (a b : ascii) :
  same_letter a b = true <-> lower_ascii a = lower_ascii b.
Proof.
  split.
  - intros H. apply nat_of_ascii_inj. rewrite !nat_of_lower_ascii.
    unfold same_letter in H.
    apply orb_true_iff in H as [H|H]; [apply orb_true_iff in H as [H|H]|].
    + apply Ascii.eqb_eq in H. now subst.
    + apply andb_true_iff in H as [Hu H]. apply Nat.eqb_eq in H.
      rewrite Hu. unfold is_upper in *. rewrite H.
      apply andb_true_iff in Hu as [Hu1 Hu2].
      apply Nat.leb_le in Hu1. apply Nat.leb_le in Hu2.
      destruct (Nat.leb_spec (nat_of_ascii a + 32) 90); [lia|].
      now rewrite andb_false_r.
    + apply andb_true_iff in H as [Hu H]. apply Nat.eqb_eq in H.
      rewrite Hu. unfold is_upper in *. rewrite H.
      apply andb_true_iff in Hu as [Hu1 Hu2].
      apply Nat.leb_le in Hu1. apply Nat.leb_le in Hu2.
      destruct (Nat.leb_spec (nat_of_ascii b + 32) 90); [lia|].
      now rewrite andb_false_r.
  - intros H. apply (f_equal nat_of_ascii) in H.
    rewrite !nat_of_lower_ascii in H. unfold same_letter.
    destruct (is_upper a) eqn:Ha, (is_upper b) eqn:Hb; cbn.
    + assert (a = b) by (apply nat_of_ascii_inj; lia). subst.
      now rewrite Ascii.eqb_refl.
    + rewrite <- H, Nat.eqb_refl. now rewrite orb_true_r.
    + rewrite H, Nat.eqb_refl. now rewrite orb_true_r.
    + apply nat_of_ascii_inj in H. subst. now rewrite Ascii.eqb_refl.
Qed.

Lemma caseless_eqb_lower (s t : string) :
  caseless_eqb s t = true <-> lower s = lower t.
Proof.
  revert t. induction s as [|a s IH]; intros [|b t]; cbn; try easy.
  rewrite andb_true_iff, same_letter_lower, IH. split.
  - intros [-> ->]. reflexivity.
  - intros H. injection H as H1 H2. now split.
Qed.

(** The test [schedule.lower() == token.lower()] of the code decides the
    case-insensitive match. *)
Lemma eqb_lower_caseless (name token : string) :
  String.eqb (lower name) (lower token) = caseless_eqb name token.
Proof.
  destruct (caseless_eqb name token) eqn:Hc.
  - apply caseless_eqb_lower in Hc. rewrite Hc. apply String.eqb_refl.
  - apply String.eqb_neq. intros H. apply caseless_eqb_lower in H. congruence.
Qed.

End Caseless.

(** ** Running the factory *)

Section Factory.
Import Py Schedules ScheduleSpec.
Local Open Scope string_scope.

Lemma lookup_setdefault_eq (k : string) (v : pyval) (d : gmap string pyval) :
  setdefault k v d !! k = Some (default v (d !! k)).
Proof.
  unfold setdefault. destruct (d !! k) eqn:E; cbn.
  - exact E.
  - apply lookup_insert_eq.
Qed.

Lemma lookup_setdefault_ne (k k' : string) (v : pyval) (d : gmap string pyval) :
  k <> k' -> setdefault k v d !! k' = d !! k'.
Proof.
  intros Hne. unfold setdefault. destruct (d !! k); [reflexivity|].
  now apply lookup_insert_ne.
Qed.

Lemma setdefault_union (k : string) (v : pyval) (d : gmap string pyval) :
  setdefault k v d = d ∪ {[ k := v ]}.
Proof.
  unfold setdefault. destruct (d !! k) eqn:E.
  - apply map_eq. intros i. rewrite lookup_union.
    destruct (decide (i = k)) as [->|Hne].
    + now rewrite E, lookup_singleton_eq.
    + rewrite lookup_singleton_ne by congruence. now destruct (d !! i).
  - now rewrite insert_union_singleton_r.
Qed.

(** [if key not in d: d[key] = v] never raises; it changes object [r] only,
    and there only an absent [key]. *)
Lemma set_if_absent_run (r : objref) (k : string) (v : pyval) (st : store) :
  exists st', set_if_absent r k v st = (inr tt, st') /\
    st' r = setdefault k v (st r) /\
    forall r', r' <> r -> st' r' = st r'.
Proof.
  unfold set_if_absent, bind, contains, setitem, setdefault, ret.
  destruct (st r !! k) eqn:E; cbn.
  - exists st. repeat split.
  - eexists. split; [reflexivity|]. split.
    + now rewrite fn_lookup_insert.
    + intros r' Hne. now rewrite fn_lookup_insert_ne.
Qed.

Lemma getitem_run (r : objref) (k : string) (v : pyval) (st : store) :
  st r !! k = Some v -> getitem r k st = (inr v, st).
Proof. intros H. unfold getitem. now rewrite H. Qed.

(** One step of the defaulting prologue, and one dictionary read. *)
Ltac run_set_if_absent :=
  match goal with
  | |- context [set_if_absent ?r ?k ?v ?st] =>
      let st' := fresh "st" in
      let Hrun := fresh "Hrun" in
      let Hat := fresh "Hat" in
      let Hframe := fresh "Hframe" in
      destruct (set_if_absent_run r k v st) as (st' & Hrun & Hat & Hframe);
      rewrite Hrun; clear Hrun; cbn iota beta
  end.

Ltac run_getitem v :=
  match goal with
  | |- context [getitem ?r ?k ?st] =>
      rewrite (getitem_run r k v st);
      [cbn iota beta
      |repeat match goal with H : _ r = setdefault _ _ _ |- _ => rewrite H end;
       repeat first
         [ rewrite lookup_setdefault_eq
         | rewrite lookup_setdefault_ne by discriminate ];
       reflexivity]
  end.

(** The branch of [get_lr_schedule] is chosen by the case-insensitive match
    of the name. *)
Lemma select_sgd (name : string) (n b : Z) (a : option nat) :
  caseless_eqb name "SGD" = true ->
  get_lr_schedule name n b a = sgd_branch (actual_args a).
Proof.
  intros H. apply caseless_eqb_lower in H.
  unfold get_lr_schedule. rewrite H. reflexivity.
Qed.

Lemma select_sgdr (name : string) (n b : Z) (a : option nat) :
  caseless_eqb name "SGDR" = true ->
  get_lr_schedule name n b a = sgdr_branch (actual_args a).
Proof.
  intros H. apply caseless_eqb_lower in H.
  unfold get_lr_schedule. rewrite H. reflexivity.
Qed.

Lemma select_clr (name : string) (n b : Z) (a : option nat) :
  caseless_eqb name "CLR" = true ->
  get_lr_schedule name n b a = clr_branch n b (actual_args a).
Proof.
  intros H. apply caseless_eqb_lower in H.
  unfold get_lr_schedule. rewrite H. reflexivity.
Qed.

Lemma select_resnet (name : string) (n b : Z) (a : option nat) :
  caseless_eqb name "ResNet-Schedule" = true ->
  get_lr_schedule name n b a = resnet_branch.
Proof.
  intros H. apply caseless_eqb_lower in H.
  unfold get_lr_schedule. rewrite H. reflexivity.
Qed.

Lemma select_unknown (name : string) (n b : Z) (a : option nat) :
  recognized name = false ->
  get_lr_schedule name n b a = raise (UnknownSchedule name).
Proof.
  unfold recognized, LR_SCHEDULES. cbn [existsb].
  rewrite !orb_false_iff. intros (H1 & H2 & H3 & H4 & _).
  unfold get_lr_schedule.
  change "sgd" with (lower "SGD"). rewrite eqb_lower_caseless, H1.
  change "sgdr" with (lower "SGDR"). rewrite eqb_lower_caseless, H2.
  change "clr" with (lower "CLR"). rewrite eqb_lower_caseless, H3.
  change "resnet-schedule" with (lower "ResNet-Schedule").
  rewrite eqb_lower_caseless, H4. reflexivity.
Qed.

(** The Plateau branch. *)
Lemma sgd_run (r : objref) (st : store) :
  exists st',
    sgd_branch r st
    = (inr ([ReduceLROnPlateau "val_loss"
               (default (PyInt 10) (st r !! "sgd_patience")) 1e-4
               (default (PyFloat 1e-4) (st r !! "sgd_min_lr")) true],
            PyInt 200), st') /\
    st' r = setdefault "sgd_min_lr" (PyFloat 1e-4)
              (setdefault "sgd_patience" (PyInt 10) (st r)) /\
    forall r', r' <> r -> st' r' = st r'.
Proof.
  unfold sgd_branch, bind.
  run_set_if_absent. run_set_if_absent.
  run_getitem (default (PyInt 10) (st r !! "sgd_patience")).
  run_getitem (default (PyFloat 1e-4) (st r !! "sgd_min_lr")).
  eexists. split; [reflexivity|]. split.
  - congruence.
  - intros r' Hne. rewrite Hframe0, Hframe by assumption. reflexivity.
Qed.

(** The WarmRestart branch. *)
Lemma sgdr_run (r : objref) (st : store) :
  let max_lr := default (PyFloat 0.1) (st r !! "sgdr_max_lr") in
  let base_len := default (PyInt 12) (st r !! "sgdr_base_len") in
  let mul := default (PyInt 2) (st r !! "sgdr_mul") in
  exists st',
    sgdr_branch r st
    = (inr ([SGDR 1e-6 max_lr base_len mul],
            py_sum (map (fun i => py_mul base_len (py_pow mul i))
                      (py_range 5))), st') /\
    st' r = setdefault "sgdr_max_lr" (PyFloat 0.1)
              (setdefault "sgdr_mul" (PyInt 2)
                 (setdefault "sgdr_base_len" (PyInt 12) (st r))) /\
    forall r', r' <> r -> st' r' = st r'.
Proof.
  intros max_lr base_len mul. unfold sgdr_branch, bind.
  run_set_if_absent. run_set_if_absent. run_set_if_absent.
  run_getitem max_lr. run_getitem base_len. run_getitem mul.
  run_getitem base_len. run_getitem mul.
  eexists. split; [reflexivity|]. split.
  - congruence.
  - intros r' Hne. rewrite Hframe1, Hframe0, Hframe by assumption.
    reflexivity.
Qed.

(** The Cyclic branch: the defaults are written first; the division by a
    zero batch size raises afterwards. *)
Lemma clr_run (n b : Z) (r : objref) (st : store) :
  let min_lr := default (PyFloat 1e-5) (st r !! "clr_min_lr") in
  let max_lr := default (PyFloat 0.1) (st r !! "clr_max_lr") in
  let step_len := default (PyInt 12) (st r !! "clr_step_len") in
  exists st',
    clr_branch n b r st
    = (if (b =? 0)%Z then inl ZeroDivisionError
       else inr ([CyclicLR min_lr max_lr (py_mul step_len (PyInt (n / b)))
                    "triangular"], py_mul step_len (PyInt 20)), st') /\
    st' r = setdefault "clr_max_lr" (PyFloat 0.1)
              (setdefault "clr_min_lr" (PyFloat 1e-5)
                 (setdefault "clr_step_len" (PyInt 12) (st r))) /\
    forall r', r' <> r -> st' r' = st r'.
Proof.
  intros min_lr max_lr step_len. unfold clr_branch, bind.
  run_set_if_absent. run_set_if_absent. run_set_if_absent.
  run_getitem min_lr. run_getitem max_lr. run_getitem step_len.
  unfold floordiv. exists st2. split; [|split].
  - destruct (b =? 0)%Z; [reflexivity|].
    unfold ret at 1. cbn iota beta.
    run_getitem step_len. reflexivity.
  - congruence.
  - intros r' Hne. rewrite Hframe1, Hframe0, Hframe by assumption.
    reflexivity.
Qed.

(** The whole chain of tests, read case-insensitively. *)
Lemma get_lr_schedule_caseless (name : string) (n b : Z) (a : option nat) :
  get_lr_schedule name n b a
  = if caseless_eqb name "SGD" then sgd_branch (actual_args a)
    else if caseless_eqb name "SGDR" then sgdr_branch (actual_args a)
    else if caseless_eqb name "CLR" then clr_branch n b (actual_args a)
    else if caseless_eqb name "ResNet-Schedule" then resnet_branch
    else raise (UnknownSchedule name).
Proof.
  unfold get_lr_schedule.
  change "sgd" with (lower "SGD"). rewrite eqb_lower_caseless.
  change "sgdr" with (lower "SGDR"). rewrite eqb_lower_caseless.
  change "clr" with (lower "CLR"). rewrite eqb_lower_caseless.
  change "resnet-schedule" with (lower "ResNet-Schedule").
  rewrite eqb_lower_caseless. reflexivity.
Qed.

(** The store after a call, whatever the name and whether or not the call
    raises: the dictionary passed as [schedule_args] has gained the defaults
    of the variant for the keys it lacked; no other object has changed. *)
Lemma get_lr_schedule_store (name : string) (n b : Z) (a : option nat)
    (st : store) :
  snd (get_lr_schedule name n b a st) (actual_args a)
  = st (actual_args a) ∪ defaults_of name /\
  forall r', r' <> actual_args a ->
    snd (get_lr_schedule name n b a st) r' = st r'.
Proof.
  rewrite get_lr_schedule_caseless. unfold defaults_of.
  destruct (caseless_eqb name "SGD").
  { destruct (sgd_run (actual_args a) st) as (st' & -> & Hat & Hframe).
    cbn [snd]. split; [|exact Hframe].
    rewrite Hat, !setdefault_union, <- (assoc_L (∪)).
    now rewrite <- insert_union_singleton_l. }
  destruct (caseless_eqb name "SGDR").
  { destruct (sgdr_run (actual_args a) st) as (st' & -> & Hat & Hframe).
    cbn [snd]. split; [|exact Hframe].
    rewrite Hat, !setdefault_union, <- !(assoc_L (∪)).
    now rewrite <- !insert_union_singleton_l. }
  destruct (caseless_eqb name "CLR").
  { destruct (clr_run n b (actual_args a) st) as (st' & -> & Hat & Hframe).
    cbn [snd]. split; [|exact Hframe].
    rewrite Hat, !setdefault_union, <- !(assoc_L (∪)).
    now rewrite <- !insert_union_singleton_l. }
  destruct (caseless_eqb name "ResNet-Schedule"); cbn [snd];
    (split; [now rewrite (right_id_L ∅ (∪)) | reflexivity]).
Qed.

(** Numbers: the value of a Python number is a ring morphism. *)
Lemma to_Q_py_mul (x y : pyval) : to_Q (py_mul x y) == to_Q x * to_Q y.
Proof.
  destruct x, y; cbn [py_mul to_Q];
    rewrite ?inject_Z_mult; reflexivity.
Qed.





End Factory.

(** ** The schedules built by the factory *)

Section FactoryClaims.
Import Py Schedules ScheduleSpec.
Local Open Scope string_scope.

(** C3.  For a non-negative epoch the StepDecay rate is 0.01 at epoch 0,
    0.1 from epoch 1 to 79, 0.01 from epoch 80 to 119 and 0.001 from epoch
    120 on; it is always one of 0.01, 0.1 and 0.001. *)
Theorem resnet_scheduler_steps (e : Z) :
  (0 <= e)%Z ->
  (e = 0%Z -> resnet_scheduler e = 0.01) /\
  ((1 <= e < 80)%Z -> resnet_scheduler e = 0.1) /\
  ((80 <= e < 120)%Z -> resnet_scheduler e = 0.01) /\
  ((120 <= e)%Z -> resnet_scheduler e = 0.001) /\
  (resnet_scheduler e = 0.01 \/ resnet_scheduler e = 0.1
   \/ resnet_scheduler e = 0.001).
Proof.
  intros He. unfold resnet_scheduler.
  destruct (Z.geb_spec e 120), (Z.geb_spec e 80), (Z.geb_spec e 1);
    repeat split; intros; try lia; auto.
Qed.

Lemma resnet_scheduler_steps_witness :
  resnet_scheduler 0 = 0.01 /\ resnet_scheduler 79 = 0.1 /\
  resnet_scheduler 80 = 0.01 /\ resnet_scheduler 120 = 0.001.
Proof.
  destruct (resnet_scheduler_steps 0 ltac:(lia)) as (H0 & _).
  destruct (resnet_scheduler_steps 79 ltac:(lia)) as (_ & H79 & _).
  destruct (resnet_scheduler_steps 80 ltac:(lia)) as (_ & _ & H80 & _).
  destruct (resnet_scheduler_steps 120 ltac:(lia)) as (_ & _ & _ & H120 & _).
  split; [|split; [|split]].
  - apply H0. reflexivity.
  - apply H79. lia.
  - apply H80. lia.
  - apply H120. lia.
Defined.



(** C5.  For the Cyclic variant and a positive batch size the factory
    builds the schedule with the half-cycle length
    [step_len * (num_samples // batch_size)], where [//] is the floor of the
    quotient, and returns the horizon [step_len * 20]. *)
Theorem clr_step_size_and_horizon (name : string) (n b : Z) (a : option nat)
    (st : store) :
  caseless_eqb name "CLR" = true -> (0 < b)%Z ->
  let step_len := default (PyInt 12) (st (actual_args a) !! "clr_step_len") in
  (exists lo hi,
     fst (get_lr_schedule name n b a st)
     = inr ([CyclicLR lo hi (py_mul step_len (PyInt (n / b))) "triangular"],
            py_mul step_len (PyInt 20))) /\
  (b * (n / b) <= n < b * (n / b) + b)%Z /\
  (forall s, step_len = PyInt s ->
     py_mul step_len (PyInt (n / b)) = PyInt (s * (n / b)) /\
     py_mul step_len (PyInt 20) = PyInt (s * 20)).
Proof.
  intros Hname Hb step_len. rewrite (select_clr name n b a Hname).
  destruct (clr_run n b (actual_args a) st) as (st' & -> & _).
  fold step_len. destruct (Z.eqb_spec b 0) as [->|_]; [lia|]. cbn [fst].
  split; [eauto|]. split.
  - pose proof (Z.mul_div_le n b Hb).
    pose proof (Z.mul_succ_div_gt n b Hb). lia.
  - intros s ->. split; reflexivity.
Qed.

Lemma clr_step_size_and_horizon_witness :
  exists lo hi,
    fst (get_lr_schedule "clr" 50000 128 None (fun _ => ∅))
    = inr ([CyclicLR lo hi (PyInt 4680) "triangular"], PyInt 240).
Proof.
  destruct (clr_step_size_and_horizon "clr" 50000 128 None (fun _ => ∅)
              eq_refl ltac:(lia)) as ((lo & hi & Hrun) & _).
  exists lo, hi. exact Hrun.
Defined.

(** C6.  The options handed to the constructors are the values of the
    configuration, unchanged, and the documented defaults for the keys the
    configuration lacks ([default v (d !! key)] is the value at [key] when
    there is one and [v] otherwise): patience 10 and min_lr 1e-4 for
    Plateau; base_len 12, mul 2, max_lr 0.1 and the fixed floor 1e-6 for
    WarmRestart; step_len 12 (and the bounds 1e-5 and 0.1) for Cyclic.
    Whether or not the call returns, the dictionary afterwards holds, at
    every defaulted key, the supplied value or else the default. *)
Theorem defaults_or_supplied (name : string) (n b : Z) (a : option nat)
    (st : store) :
  let d := st (actual_args a) in
  (caseless_eqb name "SGD" = true ->
     fst (get_lr_schedule name n b a st)
     = inr ([ReduceLROnPlateau "val_loss"
               (default (PyInt 10) (d !! "sgd_patience")) 1e-4
               (default (PyFloat 1e-4) (d !! "sgd_min_lr")) true],
            PyInt 200)) /\
  (caseless_eqb name "SGDR" = true ->
     exists h,
       fst (get_lr_schedule name n b a st)
       = inr ([SGDR 1e-6
                 (default (PyFloat 0.1) (d !! "sgdr_max_lr"))
                 (default (PyInt 12) (d !! "sgdr_base_len"))
                 (default (PyInt 2) (d !! "sgdr_mul"))], h)) /\
  (caseless_eqb name "CLR" = true -> b <> 0%Z ->
     exists h,
       fst (get_lr_schedule name n b a st)
       = inr ([CyclicLR
                 (default (PyFloat 1e-5) (d !! "clr_min_lr"))
                 (default (PyFloat 0.1) (d !! "clr_max_lr"))
                 (py_mul (default (PyInt 12) (d !! "clr_step_len"))
                    (PyInt (n / b))) "triangular"], h)) /\
  (forall key v, defaults_of name !! key = Some v ->
     snd (get_lr_schedule name n b a st) (actual_args a) !! key
     = Some (default v (d !! key))).
Proof.
  intros d. split; [|split; [|split]]; cycle 3.
  { intros key v Hdef.
    destruct (get_lr_schedule_store name n b a st) as (-> & _). fold d.
    rewrite lookup_union, Hdef. now destruct (d !! key). }
  - intros Hname. rewrite (select_sgd name n b a Hname).
    destruct (sgd_run (actual_args a) st) as (st' & -> & _). reflexivity.
  - intros Hname. rewrite (select_sgdr name n b a Hname).
    destruct (sgdr_run (actual_args a) st) as (st' & -> & _).
    eexists. reflexivity.
  - intros Hname Hb. rewrite (select_clr name n b a Hname).
    destruct (clr_run n b (actual_args a) st) as (st' & -> & _).
    destruct (Z.eqb_spec b 0) as [?|_]; [contradiction|].
    eexists. reflexivity.
Qed.

Lemma defaults_or_supplied_witness :
  fst (get_lr_schedule "sgd" 50000 128 (Some 1%nat)
         (<[Obj 1 := {[ "sgd_patience" := PyInt 5 ]}]> (fun _ => ∅)))
  = inr ([ReduceLROnPlateau "val_loss" (PyInt 5) 1e-4 (PyFloat 1e-4) true],
         PyInt 200).
Proof.
  exact (proj1 (defaults_or_supplied "sgd" 50000 128 (Some 1%nat)
                  (<[Obj 1 := {[ "sgd_patience" := PyInt 5 ]}]> (fun _ => ∅)))
           eq_refl).
Defined.

(** C7, as stated, fails: the name CLR is recognized, and with a batch size
    of 0 the call raises ZeroDivisionError instead of returning. *)
Lemma clr_zero_batch_size_raises :
  recognized "CLR" = true /\
  fst (get_lr_schedule "CLR" 50000 0 None (fun _ => ∅))
  = inl ZeroDivisionError.
Proof. split; reflexivity. Qed.

(** C7, amended.  The factory raises UnknownSchedule exactly when the name
    matches none of the four tokens case-insensitively.  For a matching name
    it returns a schedule and a horizon, provided the batch size is not 0
    when the name matches CLR and the options that enter arithmetic
    ([sgdr_base_len], [sgdr_mul], [clr_step_len], supplied or defaulted) are
    integers. *)
Theorem unknown_schedule_iff (name : string) (n b : Z) (a : option nat)
    (st : store) :
  (fst (get_lr_schedule name n b a st) = inl (UnknownSchedule name)
   <-> recognized name = false) /\
  (recognized name = true ->
   (caseless_eqb name "CLR" = true -> b <> 0%Z) ->
   integer_options name (st (actual_args a)) ->
   exists cbs h, fst (get_lr_schedule name n b a st) = inr (cbs, h)).
Proof.
  rewrite get_lr_schedule_caseless. unfold recognized, LR_SCHEDULES.
  cbn [existsb].
  destruct (caseless_eqb name "SGD").
  { destruct (sgd_run (actual_args a) st) as (st' & -> & _). cbn.
    split; [split; discriminate | eauto]. }
  destruct (caseless_eqb name "SGDR").
  { destruct (sgdr_run (actual_args a) st) as (st' & -> & _). cbn.
    split; [split; discriminate | eauto]. }
  destruct (caseless_eqb name "CLR").
  { destruct (clr_run n b (actual_args a) st) as (st' & -> & _). cbn.
    split.
    - split; [|discriminate]. destruct (b =? 0)%Z; discriminate.
    - intros _ Hb _. destruct (Z.eqb_spec b 0) as [->|_]; [now destruct Hb|].
      eauto. }
  destruct (caseless_eqb name "ResNet-Schedule"); cbn.
  - split; [split; discriminate | eauto].
  - split; [split; reflexivity | discriminate].
Qed.

Lemma unknown_schedule_iff_witness :
  fst (get_lr_schedule "adam" 50000 128 None (fun _ => ∅))
  = inl (UnknownSchedule "adam") /\
  exists cbs h,
    fst (get_lr_schedule "sgdr" 50000 128 None (fun _ => ∅)) = inr (cbs, h).
Proof.
  split.
  - apply (unknown_schedule_iff "adam" 50000 128 None (fun _ => ∅)).
    reflexivity.
  - apply (unknown_schedule_iff "sgdr" 50000 128 None (fun _ => ∅)).
    + reflexivity.
    + discriminate.
    + split.
      * intros _. split; eexists; reflexivity.
      * discriminate.
Defined.

(** C8, as stated, fails: a patience of -3 is outside the documented domain,
    and the factory hands it to the constructor and returns. *)
Lemma negative_patience_accepted :
  fst (get_lr_schedule "SGD" 50000 128 (Some 1%nat)
         (<[Obj 1 := {[ "sgd_patience" := PyInt (-3) ]}]> (fun _ => ∅)))
  = inr ([ReduceLROnPlateau "val_loss" (PyInt (-3)) 1e-4 (PyFloat 1e-4) true],
         PyInt 200).
Proof. reflexivity. Qed.

(** C8, amended.  A supplied option outside its documented domain does not
    make the factory raise: the value is handed unchanged to the constructor
    and the schedule and horizon are returned.  This holds for a
    non-positive patience (Plateau); for an integer [base_len <= 0], an
    integer [mul <= 1] or [max_lr <= min_lr = 1e-6], with [base_len] and
    [mul] integers (WarmRestart); and for an integer [step_len <= 0] or
    [max_lr <= min_lr], with [step_len] an integer and a batch size other
    than 0 (Cyclic). *)
Theorem out_of_domain_options_accepted (name : string) (n b : Z)
    (a : option nat) (st : store) :
  let d := st (actual_args a) in
  (caseless_eqb name "SGD" = true ->
   forall p, d !! "sgd_patience" = Some p -> to_Q p <= 0 ->
     fst (get_lr_schedule name n b a st)
     = inr ([ReduceLROnPlateau "val_loss" p 1e-4
               (default (PyFloat 1e-4) (d !! "sgd_min_lr")) true],
            PyInt 200)) /\
  (caseless_eqb name "SGDR" = true ->
   let max_lr := default (PyFloat 0.1) (d !! "sgdr_max_lr") in
   forall bz mz,
     default (PyInt 12) (d !! "sgdr_base_len") = PyInt bz ->
     default (PyInt 2) (d !! "sgdr_mul") = PyInt mz ->
     (bz <= 0)%Z \/ (mz <= 1)%Z \/ to_Q max_lr <= 1e-6 ->
     exists h,
       fst (get_lr_schedule name n b a st)
       = inr ([SGDR 1e-6 max_lr (PyInt bz) (PyInt mz)], PyInt h)) /\
  (caseless_eqb name "CLR" = true -> b <> 0%Z ->
   let min_lr := default (PyFloat 1e-5) (d !! "clr_min_lr") in
   let max_lr := default (PyFloat 0.1) (d !! "clr_max_lr") in
   forall s,
     default (PyInt 12) (d !! "clr_step_len") = PyInt s ->
     (s <= 0)%Z \/ to_Q max_lr <= to_Q min_lr ->
     fst (get_lr_schedule name n b a st)
     = inr ([CyclicLR min_lr max_lr (PyInt (s * (n / b))) "triangular"],
            PyInt (s * 20))).
Proof.
  intros d. split; [|split].
  - intros Hname p Hp _. rewrite (select_sgd name n b a Hname).
    destruct (sgd_run (actual_args a) st) as (st' & -> & _).
    fold d. rewrite Hp. reflexivity.
  - intros Hname max_lr bz mz Hb Hm _. rewrite (select_sgdr name n b a Hname).
    destruct (sgdr_run (actual_args a) st) as (st' & -> & _).
    fold d. fold max_lr. rewrite Hb, Hm. cbn. eexists. reflexivity.
  - intros Hname Hnz min_lr max_lr s Hs _.
    rewrite (select_clr name n b a Hname).
    destruct (clr_run n b (actual_args a) st) as (st' & -> & _).
    fold d. fold min_lr. fold max_lr. rewrite Hs.
    destruct (Z.eqb_spec b 0) as [?|_]; [contradiction|]. reflexivity.
Qed.

Lemma out_of_domain_options_accepted_witness :
  exists h,
    fst (get_lr_schedule "SGDR" 50000 128 (Some 1%nat)
           (<[Obj 1 := {[ "sgdr_mul" := PyInt 0 ]}]> (fun _ => ∅)))
    = inr ([SGDR 1e-6 (PyFloat 0.1) (PyInt 12) (PyInt 0)], PyInt h).
Proof.
  destruct (out_of_domain_options_accepted "SGDR" 50000 128 (Some 1%nat)
              (<[Obj 1 := {[ "sgdr_mul" := PyInt 0 ]}]> (fun _ => ∅)))
    as (_ & Hsgdr & _).
  apply (Hsgdr eq_refl 12%Z 0%Z).
  - reflexivity.
  - reflexivity.
  - right. left. lia.
Defined.

(** C10.  The defaults are written into the dictionary object the caller
    passed: after the call that object holds its former entries and, for
    the keys it lacked, the defaults of the variant, and no other object has
    changed.  Calls that pass no configuration all use the one default
    object of the function, so the defaults written by one such call are
    still there in the next. *)
Theorem defaults_written_in_place (name : string) (n b : Z) (st : store) :
  (forall r : nat,
     let st' := snd (get_lr_schedule name n b (Some r) st) in
     st' (Obj r) = st (Obj r) ∪ defaults_of name /\
     forall r', r' <> Obj r -> st' r' = st r') /\
  (forall (name2 : string) (n2 b2 : Z),
     let st1 := snd (get_lr_schedule name n b None st) in
     let st2 := snd (get_lr_schedule name2 n2 b2 None st1) in
     st1 DefaultArgs = st DefaultArgs ∪ defaults_of name /\
     st2 DefaultArgs
     = st DefaultArgs ∪ defaults_of name ∪ defaults_of name2).
Proof.
  split.
  - intros r. exact (get_lr_schedule_store name n b (Some r) st).
  - intros name2 n2 b2 st1 st2.
    destruct (get_lr_schedule_store name n b None st) as (H1 & _).
    destruct (get_lr_schedule_store name2 n2 b2 None st1) as (H2 & _).
    cbn [actual_args] in H1, H2. split; [exact H1|].
    unfold st2. rewrite H2. unfold st1. now rewrite H1.
Qed.

Lemma defaults_written_in_place_witness :
  let st := <[Obj 1 := {[ "sgd_patience" := PyInt 5 ]}]> (fun _ => ∅) in
  let st' := snd (get_lr_schedule "SGD" 50000 128 (Some 1%nat) st) in
  st' (Obj 1) !! "sgd_min_lr" = Some (PyFloat 1e-4) /\
  st' (Obj 1) !! "sgd_patience" = Some (PyInt 5) /\
  st' DefaultArgs = ∅.
Proof.
  intros st st'.
  destruct (defaults_written_in_place "SGD" 50000 128 st) as (Hcaller & _).
  destruct (Hcaller 1%nat) as (Hat & Hframe). fold st' in Hat, Hframe.
  rewrite Hat, (Hframe DefaultArgs) by discriminate.
  repeat split.
Defined.

(** The default object across two calls without a configuration: the keys
    written by the first call are read back by the second. *)
Example default_object_accumulates :
  let st1 := snd (get_lr_schedule "SGD" 50000 128 None (fun _ => ∅)) in
  let st2 := snd (get_lr_schedule "SGDR" 50000 128 None st1) in
  st1 DefaultArgs
  = {[ "sgd_patience" := PyInt 10; "sgd_min_lr" := PyFloat 1e-4 ]} /\
  st2 DefaultArgs !! "sgd_patience" = Some (PyInt 10) /\
  st2 DefaultArgs !! "sgdr_mul" = Some (PyInt 2).
Proof. repeat split. Qed.

End FactoryClaims.

(** ** More on the metrics: sign, symmetry and equal rows *)

Section MetricProperties.
Import Backend Metrics MetricSpec.
Local Arguments Qsum : simpl never.
Local Arguments Qsum_range : simpl never.

Lemma Qsquare_nonneg (x : Q) : 0 <= x * x.
Proof. exact (Qsqr_nonneg x). Qed.

Lemma Qsquare_zero (x y : Q) : (x - y) * (x - y) == 0 <-> x == y.
Proof.
  split.
  - intros H. apply Qmult_integral in H. destruct H; lra.
  - intros H. rewrite H. ring.
Qed.

Lemma Qsum_map_nonneg (f : nat -> Q) (l : list nat) :
  (forall j, 0 <= f j) -> 0 <= Qsum (map f l).
Proof.
  intros Hf. induction l as [|a l IH]; cbn [map]; unfold Qsum; cbn [fold_right].
  - lra.
  - fold (Qsum (map f l)). pose proof (Hf a) as Ha. lra.
Qed.

Lemma Qsum_map_zero (f : nat -> Q) (l : list nat) :
  (forall j, 0 <= f j) ->
  (Qsum (map f l) == 0 <-> forall j, In j l -> f j == 0).
Proof.
  intros Hf. induction l as [|a l IH]; cbn [map]; unfold Qsum; cbn [fold_right].
  - split; [intros _ j [] | reflexivity].
  - fold (Qsum (map f l)).
    pose proof (Hf a) as Ha. pose proof (Qsum_map_nonneg f l Hf) as Hl. split.
    + intros Hs j [<-|Hj]; [lra|]. apply IH; [lra | exact Hj].
    + intros Hz. rewrite (Hz a) by (now left).
      rewrite (proj2 IH) by (intros j Hj; apply Hz; now right). lra.
Qed.

Lemma broadcast_dim_sym (a b : nat) : broadcast_dim a b = broadcast_dim b a.
Proof.
  unfold broadcast_dim.
  destruct (Nat.eqb_spec a b) as [->|Hab].
  - now rewrite Nat.eqb_refl.
  - destruct (Nat.eqb_spec b a) as [->|_]; [contradiction|].
    destruct (Nat.eqb_spec a 1) as [->|], (Nat.eqb_spec b 1) as [->|];
      reflexivity.
Qed.

Lemma direct_distance_rows (A P : tensor2) (i i' : nat) :
  cols A = cols P ->
  direct_distance (row A i) (row P i')
  = Qsum (map (fun j => (item P i' j - item A i j) * (item P i' j - item A i j))
            (seq 0 (cols P))).
Proof.
  intros Hc. unfold direct_distance, row.
  now rewrite Hc, combine_map_seq, map_map.
Qed.

(** X1.  Whatever the shapes, when [squared_distance] returns, none of its
    entries is negative. *)
Theorem squared_distance_nonneg (T P : tensor2) (v : tensor1) :
  squared_distance T P = Ok v -> forall i, 0 <= get v i.
Proof.
  unfold squared_distance, sub2, broadcast2.
  destruct (broadcast_dim (rows P) (rows T)); [|discriminate].
  destruct (broadcast_dim (cols P) (cols T)); [|discriminate].
  cbn. intros [= <-] i. cbn. apply Qsum_map_nonneg. intros j.
  apply Qsquare_nonneg.
Qed.

Lemma squared_distance_nonneg_witness :
  0 <= get (Tensor1 1 (fun _ => 25)) 0.
Proof.
  apply (squared_distance_nonneg (of_rows 1 1 [[5]]) (of_rows 1 2 [[1; 2]])).
  reflexivity.
Defined.

(** X2.  [squared_distance] is symmetric in its two arguments, broadcasting
    included: swapping them gives the same entries, or the same error. *)
Theorem squared_distance_sym (T P : tensor2) :
  match squared_distance T P, squared_distance P T with
  | Ok v, Ok v' => len v = len v' /\ forall i, get v i == get v' i
  | Raise e, Raise e' => e = e'
  | _, _ => False
  end.
Proof.
  unfold squared_distance, sub2, broadcast2.
  rewrite (broadcast_dim_sym (rows T) (rows P)),
          (broadcast_dim_sym (cols T) (cols P)).
  destruct (broadcast_dim (rows P) (rows T)); [|reflexivity].
  destruct (broadcast_dim (cols P) (cols T)); [|reflexivity].
  cbn. split; [reflexivity|]. intros i. apply Qsum_map_ext. intros j _. ring.
Qed.

(** X3.  For batches of one shape, a sample whose prediction row agrees
    with its true row in every coordinate has squared distance 0. *)
Theorem squared_distance_zero_on_equal (T P : tensor2) (i : nat) :
  rows T = rows P -> cols T = cols P -> (i < rows P)%nat ->
  (forall j, (j < cols P)%nat -> item P i j == item T i j) ->
  exists v, squared_distance T P = Ok v /\ get v i == 0.
Proof.
  intros Hr Hc Hi Hrow.
  destruct (nn_true_dist_direct T P Hr Hc) as (v & Hv & _ & Hdir).
  exists v. split; [exact Hv|].
  rewrite (Hdir i Hi), direct_distance_rows by assumption.
  apply Qsum_map_zero; [intros j; apply Qsquare_nonneg|].
  intros j Hj. apply in_seq in Hj. apply Qsquare_zero, Hrow. lia.
Qed.

Lemma squared_distance_zero_on_equal_witness :
  exists v,
    squared_distance (of_rows 1 2 [[1; 2]]) (of_rows 1 2 [[1; 2]]) = Ok v /\
    get v 0 == 0.
Proof.
  apply (squared_distance_zero_on_equal (of_rows 1 2 [[1; 2]])
           (of_rows 1 2 [[1; 2]]) 0).
  - reflexivity.
  - reflexivity.
  - cbn. lia.
  - intros j _. reflexivity.
Defined.

End MetricProperties.

(** ** More on the factory: what a call reads, repeated calls, edge cases *)

Section FactoryProperties.
Import Py Schedules ScheduleSpec.
Local Open Scope string_scope.

(** The outcome of a call is a function of the name, the two sizes and, for
    each option of the variant, the supplied value or else its default. *)
Lemma outcome_reads_options (name : string) (n b : Z) (a : option nat)
    (st st' : store) :
  (forall k v, defaults_of name !! k = Some v ->
     default v (st (actual_args a) !! k) = default v (st' (actual_args a) !! k)) ->
  fst (get_lr_schedule name n b a st) = fst (get_lr_schedule name n b a st').
Proof.
  rewrite !get_lr_schedule_caseless. unfold defaults_of. intros Hopt.
  destruct (caseless_eqb name "SGD").
  { destruct (sgd_run (actual_args a) st) as (st1 & -> & _).
    destruct (sgd_run (actual_args a) st') as (st2 & -> & _). cbn [fst].
    now rewrite (Hopt "sgd_patience" (PyInt 10) eq_refl),
                (Hopt "sgd_min_lr" (PyFloat 1e-4) eq_refl). }
  destruct (caseless_eqb name "SGDR").
  { destruct (sgdr_run (actual_args a) st) as (st1 & -> & _).
    destruct (sgdr_run (actual_args a) st') as (st2 & -> & _). cbn [fst].
    now rewrite (Hopt "sgdr_base_len" (PyInt 12) eq_refl),
                (Hopt "sgdr_mul" (PyInt 2) eq_refl),
                (Hopt "sgdr_max_lr" (PyFloat 0.1) eq_refl). }
  destruct (caseless_eqb name "CLR").
  { destruct (clr_run n b (actual_args a) st) as (st1 & -> & _).
    destruct (clr_run n b (actual_args a) st') as (st2 & -> & _). cbn [fst].
    now rewrite (Hopt "clr_step_len" (PyInt 12) eq_refl),
                (Hopt "clr_min_lr" (PyFloat 1e-5) eq_refl),
                (Hopt "clr_max_lr" (PyFloat 0.1) eq_refl). }
  destruct (caseless_eqb name "ResNet-Schedule"); reflexivity.
Qed.

(** The option keys of two different variants are different keys. *)
Lemma defaults_of_disjoint (name1 name2 : string) (k : string) :
  lower name1 <> lower name2 ->
  is_Some (defaults_of name2 !! k) -> defaults_of name1 !! k = None.
Proof.
  intros Hne. unfold defaults_of.
  destruct (caseless_eqb name1 "SGD") eqn:H1a;
    [|destruct (caseless_eqb name1 "SGDR") eqn:H1b;
      [|destruct (caseless_eqb name1 "CLR") eqn:H1c]];
  (destruct (caseless_eqb name2 "SGD") eqn:H2a;
    [|destruct (caseless_eqb name2 "SGDR") eqn:H2b;
      [|destruct (caseless_eqb name2 "CLR") eqn:H2c]]);
  try (exfalso; apply Hne;
       repeat match goal with
              | H : caseless_eqb _ _ = true |- _ =>
                  apply caseless_eqb_lower in H
              end; congruence);
  try reflexivity;
  intros [v Hk];
  repeat (apply lookup_insert_Some in Hk as [[<- _]|[_ Hk]]; [reflexivity|]);
  try (apply lookup_singleton_Some in Hk as [<- _]; reflexivity);
  try (rewrite lookup_empty in Hk; discriminate).
Qed.

(** X7.  A call reads nothing but the options of its own variant: two
    stores whose configuration dictionaries agree on the keys of the variant
    give the same outcome, whatever else the dictionaries and the rest of the
    stores hold. *)
Theorem get_lr_schedule_own_options (name : string) (n b : Z) (a : option nat)
    (st st' : store) :
  (forall k, is_Some (defaults_of name !! k) ->
     st (actual_args a) !! k = st' (actual_args a) !! k) ->
  fst (get_lr_schedule name n b a st) = fst (get_lr_schedule name n b a st').
Proof.
  intros Hsame. apply outcome_reads_options. intros k v Hk.
  now rewrite Hsame by (now exists v).
Qed.

Lemma get_lr_schedule_own_options_witness :
  fst (get_lr_schedule "SGD" 50000 128 (Some 1%nat)
         (<[Obj 1 := {[ "clr_step_len" := PyInt 3 ]}]> (fun _ => ∅)))
  = fst (get_lr_schedule "SGD" 50000 128 (Some 1%nat) (fun _ => ∅)).
Proof.
  apply (get_lr_schedule_own_options "SGD" 50000 128 (Some 1%nat)).
  intros k [v Hk]. unfold defaults_of in Hk. cbn [caseless_eqb] in Hk.
  apply lookup_insert_Some in Hk as [[<- _]|[_ Hk]]; [reflexivity|].
  apply lookup_singleton_Some in Hk as [<- _]. reflexivity.
Defined.

(** X8.  Repeating a call on the store it left behind gives the same
    outcome and changes no object: the defaults written by the first call
    are the values the second call reads. *)
Theorem get_lr_schedule_repeat (name : string) (n b : Z) (a : option nat)
    (st : store) :
  let st1 := snd (get_lr_schedule name n b a st) in
  fst (get_lr_schedule name n b a st1) = fst (get_lr_schedule name n b a st) /\
  forall r, snd (get_lr_schedule name n b a st1) r = st1 r.
Proof.
  intros st1.
  destruct (get_lr_schedule_store name n b a st) as (Hat & Hframe).
  destruct (get_lr_schedule_store name n b a st1) as (Hat1 & Hframe1).
  fold st1 in Hat, Hframe. split.
  - apply outcome_reads_options. intros k v Hk.
    rewrite Hat, lookup_union, Hk. now destruct (st (actual_args a) !! k).
  - intros r. destruct (decide (r = actual_args a)) as [->|Hne].
    + rewrite Hat1, Hat, <- (assoc_L (∪)). f_equal. apply (idemp_L (∪)).
    + now apply Hframe1.
Qed.

(** X9.  The variants do not influence one another through a shared
    dictionary: after a call for one variant, a call for a different variant
    on the same dictionary (the default object included) has the outcome it
    would have had without the first call. *)
Theorem get_lr_schedule_variants_independent (name1 name2 : string)
    (n1 b1 n2 b2 : Z) (a : option nat) (st : store) :
  lower name1 <> lower name2 ->
  fst (get_lr_schedule name2 n2 b2 a (snd (get_lr_schedule name1 n1 b1 a st)))
  = fst (get_lr_schedule name2 n2 b2 a st).
Proof.
  intros Hne. apply outcome_reads_options. intros k v Hk.
  destruct (get_lr_schedule_store name1 n1 b1 a st) as (-> & _).
  rewrite lookup_union.
  rewrite (defaults_of_disjoint name1 name2 k Hne) by (now exists v).
  now destruct (st (actual_args a) !! k).
Qed.

Lemma get_lr_schedule_variants_independent_witness :
  fst (get_lr_schedule "SGDR" 50000 128 None
         (snd (get_lr_schedule "sgd" 50000 128 None (fun _ => ∅))))
  = fst (get_lr_schedule "SGDR" 50000 128 None (fun _ => ∅)).
Proof.
  apply (get_lr_schedule_variants_independent "sgd" "SGDR").
  discriminate.
Defined.

(** X10.  With integer options the WarmRestart horizon is the geometric sum
    in closed form: [(mul - 1) * horizon = base_len * (mul ^ 5 - 1)], which
    is [31 * base_len] for [mul = 2] and [5 * base_len] for [mul = 1]. *)
Theorem sgdr_horizon_closed_form (name : string) (n b : Z) (a : option nat)
    (st : store) (bz mz : Z) :
  caseless_eqb name "SGDR" = true ->
  default (PyInt 12) (st (actual_args a) !! "sgdr_base_len") = PyInt bz ->
  default (PyInt 2) (st (actual_args a) !! "sgdr_mul") = PyInt mz ->
  exists cbs hz,
    fst (get_lr_schedule name n b a st) = inr (cbs, PyInt hz) /\
    ((mz - 1) * hz = bz * (mz ^ 5 - 1))%Z /\
    (mz = 2%Z -> hz = (31 * bz)%Z) /\
    (mz = 1%Z -> hz = (5 * bz)%Z).
Proof.
  intros Hname Hb Hm. rewrite (select_sgdr name n b a Hname).
  destruct (sgdr_run (actual_args a) st) as (st' & -> & _).
  rewrite Hb, Hm. cbn.
  change (Z.of_nat 0) with 0%Z. change (Z.of_nat 1) with 1%Z.
  change (Z.of_nat 2) with 2%Z. change (Z.of_nat 3) with 3%Z.
  change (Z.of_nat 4) with 4%Z.
  eexists _, _. split; [reflexivity|]. split; [|split].
  - ring.
  - intros ->. ring.
  - intros ->. ring.
Qed.

Lemma sgdr_horizon_closed_form_witness :
  exists cbs,
    fst (get_lr_schedule "sgdr" 50000 128 (Some 1%nat)
           (<[Obj 1 := {[ "sgdr_base_len" := PyInt 10 ]}]> (fun _ => ∅)))
    = inr (cbs, PyInt 310).
Proof.
  destruct (sgdr_horizon_closed_form "sgdr" 50000 128 (Some 1%nat)
              (<[Obj 1 := {[ "sgdr_base_len" := PyInt 10 ]}]> (fun _ => ∅))
              10 2) as (cbs & hz & Hrun & _ & H2 & _).
  - reflexivity.
  - reflexivity.
  - reflexivity.
  - exists cbs. rewrite Hrun, (H2 eq_refl). reflexivity.
Defined.

(** X11.  With fewer samples than one batch, [num_samples // batch_size] is
    0 and the Cyclic schedule is built with a half-cycle of 0 iterations,
    whatever [step_len] is; the call still returns. *)
Theorem clr_step_size_zero (name : string) (n b : Z) (a : option nat)
    (st : store) :
  caseless_eqb name "CLR" = true -> (0 <= n < b)%Z ->
  exists lo hi step h,
    fst (get_lr_schedule name n b a st)
    = inr ([CyclicLR lo hi step "triangular"], h) /\
    (to_Q step == 0)%Q.
Proof.
  intros Hname Hn. rewrite (select_clr name n b a Hname).
  destruct (clr_run n b (actual_args a) st) as (st' & -> & _).
  destruct (Z.eqb_spec b 0) as [->|_]; [lia|]. cbn [fst].
  eexists _, _, _, _. split; [reflexivity|].
  rewrite to_Q_py_mul, Z.div_small by assumption. cbn [to_Q]. ring.
Qed.

Lemma clr_step_size_zero_witness :
  exists lo hi step h,
    fst (get_lr_schedule "CLR" 100 128 None (fun _ => ∅))
    = inr ([CyclicLR lo hi step "triangular"], h) /\
    (to_Q step == 0)%Q.
Proof.
  apply (clr_step_size_zero "CLR" 100 128 None (fun _ => ∅)).
  - reflexivity.
  - lia.
Defined.

(** X12.  A failing call is not free of effects: for the Cyclic variant
    with a batch size of 0 the call raises ZeroDivisionError, and the
    configuration dictionary has nevertheless received the three defaults
    for the keys it lacked. *)
Theorem clr_failure_keeps_defaults (name : string) (n : Z) (a : option nat)
    (st : store) :
  caseless_eqb name "CLR" = true ->
  fst (get_lr_schedule name n 0 a st) = inl ZeroDivisionError /\
  snd (get_lr_schedule name n 0 a st) (actual_args a)
  = st (actual_args a)
    ∪ {[ "clr_step_len" := PyInt 12; "clr_min_lr" := PyFloat 1e-5;
         "clr_max_lr" := PyFloat 0.1 ]}.
Proof.
  intros Hname. split.
  - rewrite (select_clr name n 0 a Hname).
    destruct (clr_run n 0 (actual_args a) st) as (st' & -> & _). reflexivity.
  - destruct (get_lr_schedule_store name n 0 a st) as (-> & _).
    f_equal. unfold defaults_of. rewrite Hname.
    destruct (caseless_eqb name "SGD") eqn:H1.
    { apply caseless_eqb_lower in H1, Hname. rewrite H1 in Hname.
      vm_compute in Hname. discriminate. }
    destruct (caseless_eqb name "SGDR") eqn:H2.
    { apply caseless_eqb_lower in H2, Hname. rewrite H2 in Hname.
      vm_compute in Hname. discriminate. }
    reflexivity.
Qed.

Lemma clr_failure_keeps_defaults_witness :
  fst (get_lr_schedule "clr" 50000 0 None (fun _ => ∅)) = inl ZeroDivisionError /\
  snd (get_lr_schedule "clr" 50000 0 None (fun _ => ∅)) DefaultArgs
  = ∅ ∪ {[ "clr_step_len" := PyInt 12; "clr_min_lr" := PyFloat 1e-5;
           "clr_max_lr" := PyFloat 0.1 ]}.
Proof.
  apply (clr_failure_keeps_defaults "clr" 50000 None (fun _ => ∅)).
  reflexivity.
Defined.

(** X20.  A recognized schedule name is read through [lower()] only: two
    spellings that differ in case alone give the same call, outcome and
    store alike. *)
Theorem get_lr_schedule_case_insensitive (name1 name2 : string) (n b : Z)
    (a : option nat) (st : store) :
  lower name1 = lower name2 -> recognized name1 = true ->
  get_lr_schedule name1 n b a st = get_lr_schedule name2 n b a st.
Proof.
  intros Hlow Hrec. rewrite !get_lr_schedule_caseless.
  assert (Hsame : forall token,
             caseless_eqb name1 token = caseless_eqb name2 token).
  { intros token. now rewrite <- !eqb_lower_caseless, Hlow. }
  unfold recognized, LR_SCHEDULES in Hrec. cbn [existsb] in Hrec.
  rewrite <- !Hsame.
  destruct (caseless_eqb name1 "SGD"); [reflexivity|].
  destruct (caseless_eqb name1 "SGDR"); [reflexivity|].
  destruct (caseless_eqb name1 "CLR"); [reflexivity|].
  destruct (caseless_eqb name1 "ResNet-Schedule"); [reflexivity|].
  discriminate Hrec.
Qed.

Lemma get_lr_schedule_case_insensitive_witness :
  get_lr_schedule "ResNet-Schedule" 50000 128 None (fun _ => ∅)
  = get_lr_schedule "RESNET-schedule" 50000 128 None (fun _ => ∅).
Proof.
  apply (get_lr_schedule_case_insensitive "ResNet-Schedule" "RESNET-schedule").
  - reflexivity.
  - reflexivity.
Defined.

(** X13.  The StepDecay rate never increases from epoch 1 on, and for every
    integer epoch, negative ones included, it lies between 0.001 and 0.1. *)
Theorem resnet_scheduler_decreasing (e1 e2 e : Z) :
  (1 <= e1 <= e2)%Z ->
  (resnet_scheduler e2 <= resnet_scheduler e1)%Q /\
  (0.001 <= resnet_scheduler e <= 0.1)%Q.
Proof.
  intros He. unfold resnet_scheduler. split.
  - destruct (Z.geb_spec e1 120), (Z.geb_spec e1 80), (Z.geb_spec e1 1),
             (Z.geb_spec e2 120), (Z.geb_spec e2 80), (Z.geb_spec e2 1);
      try lia; discriminate.
  - destruct (Z.geb_spec e 120), (Z.geb_spec e 80), (Z.geb_spec e 1);
      split; discriminate.
Qed.

Lemma resnet_scheduler_decreasing_witness :
  (resnet_scheduler 120 <= resnet_scheduler 79)%Q /\
  (0.001 <= resnet_scheduler (-5) <= 0.1)%Q.
Proof. apply (resnet_scheduler_decreasing 79 120 (-5)). lia. Defined.

End FactoryProperties.

(** ** Network construction: dispatch and the layer list *)

Section NetworkProperties.
Import Networks.
Local Open Scope string_scope.

(** Splitting on the tests [architecture == '...'] of [build_network]. *)
Ltac split_architecture arch :=
  destruct (String.eqb_spec arch "resnet-32") as [->|?];
  [|destruct (String.eqb_spec arch "resnet-110") as [->|?];
    [|destruct (String.eqb_spec arch "resnet-110-fc") as [->|?];
      [|destruct (String.eqb_spec arch "wrn-28-10") as [->|?];
        [|destruct (String.eqb_spec arch "densenet-100-12") as [->|?];
          [|destruct (String.eqb_spec arch "simple") as [->|?];
            [|destruct (String.eqb_spec arch "simple-mp") as [->|?];
              [|destruct (String.eqb_spec arch "vgg16") as [->|?];
                [|destruct (String.eqb_spec arch "resnet-50") as [->|?]]]]]]]]].

(** X14.  [build_network] accepts exactly the names listed in
    [ARCHITECTURES], compared as they are written (case matters): it raises
    the ValueError for an unknown architecture if and only if the name is
    not in the list, and for a name of the list it returns a model as soon
    as [int('512')] succeeds. *)
Theorem build_network_known_architectures (py_int : string -> option Z)
    (num_outputs : Z) (architecture : string) (classification : bool)
    (name : option string) :
  (build_network py_int num_outputs architecture classification name
   = inl (ValueError ("Unknown network architecture: " ++ architecture))
   <-> ~ In architecture ARCHITECTURES) /\
  (In architecture ARCHITECTURES -> is_Some (py_int "512") ->
   exists m,
     build_network py_int num_outputs architecture classification name
     = inr m).
Proof.
  unfold build_network.
  split_architecture architecture; cbn -[In ARCHITECTURES];
    try (split;
         [split; [discriminate | intros Hn; exfalso; apply Hn; cbn; tauto]
         |intros _ _; eauto]).
  - destruct (py_int "512") as [u|] eqn:Hu; cbn -[In ARCHITECTURES].
    + split; [|intros _ _; eauto].
      split; [discriminate | intros Hn; exfalso; apply Hn; cbn; tauto].
    + split; [|intros _ [u Hs]; discriminate].
      split; [discriminate | intros Hn; exfalso; apply Hn; cbn; tauto].
  - destruct (py_int "512") as [u|] eqn:Hu; cbn -[In ARCHITECTURES].
    + split; [|intros _ _; eauto].
      split; [discriminate | intros Hn; exfalso; apply Hn; cbn; tauto].
    + split; [|intros _ [u Hs]; discriminate].
      split; [discriminate | intros Hn; exfalso; apply Hn; cbn; tauto].
  - split.
    + split; [|reflexivity]. intros _. cbn. intuition congruence.
    + intros Hin. exfalso. cbn in Hin. intuition congruence.
Qed.

Lemma build_network_known_architectures_witness :
  exists m, build_network digits_int 100 "simple-mp" false None = inr m.
Proof.
  apply (build_network_known_architectures digits_int 100 "simple-mp" false None).
  - cbn. tauto.
  - eexists. reflexivity.
Defined.

(** X15.  [get_custom_objects] registers [ChannelPadding] exactly for the
    architectures for which [build_network] builds a [SmallResNet]; for
    every other name, unknown ones included, it returns the empty
    dictionary and does not raise. *)
Theorem get_custom_objects_matches_build_network
    (py_int : string -> option Z) (num_outputs : Z) (architecture : string)
    (classification : bool) (name : option string) :
  ((exists n filters top act,
      build_network py_int num_outputs architecture classification name
      = inr (SmallResNet n filters top act num_outputs name))
   <-> get_custom_objects architecture !! "ChannelPadding"
       = Some ChannelPadding) /\
  (get_custom_objects architecture = {[ "ChannelPadding" := ChannelPadding ]}
   \/ get_custom_objects architecture = ∅).
Proof.
  unfold build_network, get_custom_objects.
  split_architecture architecture;
    try (split; [split; [reflexivity | eauto] | now left]).
  all: cbn [existsb].
  all: repeat match goal with
       | |- context [String.eqb ?a ?b] =>
           destruct (String.eqb_spec a b); [congruence|]
       end.
  all: cbn [orb].
  all: split; [|now right].
  all: split; [|rewrite lookup_empty; discriminate].
  all: intros (depth & fs & top & act & Hrun); exfalso.
  all: try discriminate Hrun.
  all: unfold build_simplenet in Hrun; cbn in Hrun.
  all: destruct (py_int "512"); discriminate Hrun.
Qed.

Lemma get_custom_objects_matches_build_network_witness :
  get_custom_objects "resnet-110" !! "ChannelPadding" = Some ChannelPadding.
Proof.
  apply (proj1 (get_custom_objects_matches_build_network digits_int 10
                  "resnet-110" false None)).
  eexists _, _, _, _. reflexivity.
Defined.

(** *** The loop of [build_simplenet] *)

Lemma dense_guarded_app (seen : bool) (l1 l2 : list layer) :
  dense_guarded seen (l1 ++ l2)%list
  = dense_guarded seen l1 && dense_guarded (seen || existsb flattens l1) l2.
Proof.
  revert seen. induction l1 as [|x l1 IH]; intros seen; cbn.
  - now rewrite orb_false_r.
  - rewrite IH, orb_assoc, andb_assoc. reflexivity.
Qed.

Lemma no_flatten_before_flattening (ls : list layer) :
  existsb flattens ls = false -> List.filter is_Flatten ls = nil.
Proof.
  induction ls as [|x ls IH]; cbn; [reflexivity|].
  intros H. apply orb_false_iff in H as [Hx Hls].
  destruct x; cbn in *; try discriminate; auto.
Qed.

Lemma simplenet_step_invariant (py_int : string -> option Z)
    (prefix activation : string) (reg : regularizer) (i : nat)
    (f : filter_spec) (state state' : bool * list layer) :
  loop_invariant state ->
  simplenet_step py_int prefix activation reg i f state = inr state' ->
  loop_invariant state' /\ exists ext, snd state' = (snd state ++ ext)%list.
Proof.
  destruct state as [fl ls]. unfold loop_invariant. cbn [fst snd].
  intros (Hfl & Hg & Hc). unfold simplenet_step.
  destruct (entry_is f "mp").
  { intros [= <-]. cbn [fst snd]. split; [|eauto].
    rewrite existsb_app, dense_guarded_app, List.filter_app, List.length_app, Hg.
    cbn. rewrite orb_false_r. repeat split; [assumption | lia]. }
  destruct (entry_is f "ap").
  { intros [= <-]. cbn [fst snd]. split; [|eauto].
    rewrite existsb_app, dense_guarded_app, List.filter_app, List.length_app, Hg.
    cbn. rewrite orb_false_r. repeat split; [assumption | lia]. }
  destruct (entry_is f "gap").
  { intros [= <-]. cbn [fst snd]. split; [|eauto].
    rewrite existsb_app, dense_guarded_app, List.filter_app, List.length_app, Hg.
    cbn. rewrite orb_true_r. repeat split; lia. }
  destruct (entry_is_fc f).
  { destruct (py_int (entry_suffix f)) as [units|]; [|discriminate].
    intros [= <-]. cbn [fst snd]. destruct fl; cbn [negb].
    - split; [|rewrite <- app_assoc; eauto].
      rewrite !existsb_app, !dense_guarded_app, !List.filter_app, !List.length_app, Hg.
      rewrite <- Hfl. cbn. repeat split; lia.
    - split; [|rewrite <- !app_assoc; eauto].
      rewrite !existsb_app, !dense_guarded_app, !List.filter_app, !List.length_app, Hg.
      rewrite (no_flatten_before_flattening ls) by (now symmetry).
      rewrite ?existsb_app. cbn. rewrite !orb_true_r. repeat split. lia. }
  intros [= <-]. cbn [fst snd]. split; [|rewrite <- app_assoc; eauto].
  rewrite !existsb_app, !dense_guarded_app, !List.filter_app, !List.length_app, Hg.
  cbn. rewrite !orb_false_r. repeat split; [assumption | lia].
Qed.

Lemma simplenet_loop_invariant (py_int : string -> option Z)
    (prefix activation : string) (reg : regularizer)
    (fs : list filter_spec) (i : nat) (state state' : bool * list layer) :
  loop_invariant state ->
  simplenet_loop py_int prefix activation reg i fs state = inr state' ->
  loop_invariant state' /\ exists ext, snd state' = (snd state ++ ext)%list.
Proof.
  revert i state. induction fs as [|f fs IH]; intros i state Hinv; cbn.
  - intros [= <-]. split; [assumption|]. exists nil. now rewrite app_nil_r.
  - destruct (simplenet_step py_int prefix activation reg i f state)
      as [e|st1] eqn:Hstep; [discriminate|].
    intros Hloop.
    destruct (simplenet_step_invariant _ _ _ _ _ _ _ _ Hinv Hstep)
      as (Hinv1 & ext1 & Hext1).
    destruct (IH _ _ Hinv1 Hloop) as (Hinv' & ext & Hext).
    split; [assumption|]. exists (ext1 ++ ext)%list.
    now rewrite Hext, Hext1, app_assoc.
Qed.

(** X16.  The layers that [build_simplenet] hands to [Sequential] contain
    at most one [Flatten] layer, and every [Dense] layer, the final one
    included, comes after a [Flatten] or a [GlobalAvgPool2D] layer. *)
Theorem build_simplenet_flattens_once (py_int : string -> option Z)
    (output_dim : Z) (filters : list filter_spec) (activation : string)
    (reg : regularizer) (final_activation name : option string)
    (layers : list layer) (name' : option string) :
  build_simplenet py_int output_dim filters activation reg final_activation
    name = inr (Sequential layers name') ->
  (length (List.filter is_Flatten layers) <= 1)%nat /\
  dense_guarded false layers = true /\
  existsb flattens layers = true.
Proof.
  unfold build_simplenet. destruct filters as [|f0 rest]; [discriminate|].
  destruct (simplenet_loop _ _ _ _ _ _ _) as [e|[fl ls]] eqn:Hloop;
    [discriminate|].
  intros [= <- _].
  apply simplenet_loop_invariant in Hloop as ((Hfl & Hg & Hc) & _).
  2: { repeat split. cbn. lia. }
  cbn [fst snd] in Hfl, Hg, Hc. destruct fl; cbn [negb].
  - rewrite existsb_app, dense_guarded_app, List.filter_app, List.length_app.
    rewrite Hg, <- Hfl. cbn. repeat split. lia.
  - rewrite !existsb_app, !dense_guarded_app, !List.filter_app,
            !List.length_app, Hg.
    rewrite (no_flatten_before_flattening ls) by (now symmetry).
    rewrite ?existsb_app. cbn. rewrite !orb_true_r. repeat split. lia.
Qed.

Lemma build_simplenet_flattens_once_witness :
  exists layers,
    build_simplenet digits_int 10 [FInt 8; FStr "fc32"; FStr "gap"; FStr "fc16"]
      "relu" (l2 0.0005) None None = inr (Sequential layers None) /\
    (length (List.filter is_Flatten layers) <= 1)%nat /\
    dense_guarded false layers = true /\
    existsb flattens layers = true.
Proof.
  eexists. split; [reflexivity|].
  apply (build_simplenet_flattens_once digits_int 10
           [FInt 8; FStr "fc32"; FStr "gap"; FStr "fc16"]
           "relu" (l2 0.0005) None None _ None).
  reflexivity.
Defined.

(** X17.  The layer list always starts with a [Conv2D] layer on the first
    entry of [filters], whatever that entry is (a string such as 'mp' is not
    read as a token there), followed by a [BatchNormalization] layer, and
    always ends with the [Dense] layer of [output_dim] units, named 'prob'
    when [final_activation] is 'softmax' and 'embedding' otherwise; the
    model carries the given name. *)
Theorem build_simplenet_first_and_last (py_int : string -> option Z)
    (output_dim : Z) (filters : list filter_spec) (activation : string)
    (reg : regularizer) (final_activation name : option string)
    (layers : list layer) (name' : option string) :
  build_simplenet py_int output_dim filters activation reg final_activation
    name = inr (Sequential layers name') ->
  let prefix := match name with None => "" | Some nm => nm ++ "_" end in
  name' = name /\
  exists f0 rest middle,
    filters = f0 :: rest /\
    layers
    = (Conv2D f0 (3, 3)%Z "same" activation reg (Some (32, 32, 3)%Z)
         (prefix ++ "conv1")
       :: BatchNormalization (prefix ++ "bn1")
       :: middle
       ++ [Dense output_dim final_activation None
             (prefix ++ (if bool_decide (final_activation = Some "softmax")
                         then "prob" else "embedding"))])%list.
Proof.
  unfold build_simplenet. destruct filters as [|f0 rest]; [discriminate|].
  destruct (simplenet_loop _ _ _ _ _ _ _) as [e|[fl ls]] eqn:Hloop;
    [discriminate|].
  intros [= <- <-]. split; [reflexivity|].
  apply simplenet_loop_invariant in Hloop as (_ & ext & Hext).
  2: { repeat split. cbn. lia. }
  cbn [snd] in Hext. subst ls.
  exists f0, rest.
  exists (ext ++ if negb fl
                 then [Flatten ((match name with
                                 | None => ""
                                 | Some nm => nm ++ "_"
                                 end) ++ "flatten")]
                 else nil)%list.
  split; [reflexivity|].
  destruct fl; cbn [negb app]; rewrite ?app_nil_r, <- ?app_assoc; reflexivity.
Qed.

Lemma build_simplenet_first_and_last_witness :
  Some "net" = Some "net" /\
  exists f0 rest middle,
    [FStr "mp"] = f0 :: rest /\
    [Conv2D (FStr "mp") (3, 3)%Z "same" "relu" (l2 0.0005)
       (Some (32, 32, 3)%Z) "net_conv1";
     BatchNormalization "net_bn1"; Flatten "net_flatten";
     Dense 10 (Some "softmax") None "net_prob"]
    = (Conv2D f0 (3, 3)%Z "same" "relu" (l2 0.0005) (Some (32, 32, 3)%Z)
         "net_conv1"
       :: BatchNormalization "net_bn1"
       :: middle ++ [Dense 10 (Some "softmax") None "net_prob"])%list.
Proof.
  apply (build_simplenet_first_and_last digits_int 10 [FStr "mp"] "relu"
           (l2 0.0005) (Some "softmax") (Some "net")).
  reflexivity.
Defined.

Lemma snoc_under_cons {A} (x d : A) (l body : list A) :
  l = (body ++ [d])%list -> x :: l = ((x :: body) ++ [d])%list.
Proof. now intros ->. Qed.

(** X19.  For the two simple architectures, [build_network] returns a
    [Sequential] model under the given name whose last layer is the [Dense]
    layer of [num_outputs] units: with softmax and the name 'prob' for
    classification, without activation and with the name 'embedding'
    otherwise. *)
Theorem build_network_simple_head (py_int : string -> option Z)
    (num_outputs : Z) (architecture : string) (classification : bool)
    (name : option string) :
  architecture = "simple" \/ architecture = "simple-mp" ->
  is_Some (py_int "512") ->
  exists body,
    build_network py_int num_outputs architecture classification name
    = inr (Sequential
             (body ++ [Dense num_outputs (softmax_if classification) None
                         ((match name with None => "" | Some nm => nm ++ "_" end)
                          ++ (if classification then "prob" else "embedding"))])
             name).
Proof.
  intros [-> | ->] [u Hu]; unfold build_network, build_simplenet;
    cbn [String.eqb Ascii.eqb Bool.eqb simplenet_loop simplenet_step
         entry_is entry_is_fc entry_suffix str_drop String.prefix negb app];
    rewrite Hu; destruct classification; eexists; do 2 f_equal;
    repeat first [ exact (eq_refl : [_] = (nil ++ [_])%list)
                 | apply snoc_under_cons ].
Qed.

Lemma build_network_simple_head_witness :
  exists body,
    build_network digits_int 100 "simple" false (Some "net")
    = inr (Sequential (body ++ [Dense 100 None None "net_embedding"])
             (Some "net")).
Proof.
  apply (build_network_simple_head digits_int 100 "simple" false (Some "net")).
  - now left.
  - eexists. reflexivity.
Defined.

End NetworkProperties.
